(** * appleseed: the distribution ray tracing lighting engine, the AOV
      accumulator registry and the ambient occlusion surface shader

    Shallow embedding of
      - renderer/kernel/lighting/drt/drt.cpp
      - renderer/kernel/aov/aovaccumulator.h
      - renderer/modeling/surfaceshader/aosurfaceshader.cpp
    together with the properties their specification states about them.

    The C++ code computes with [double] and [float].  The embedding is
    written once over a small numeric interface, [Arith]; the program is the
    embedding read at the instance [IEEE] (binary64 and binary32 with
    round-to-nearest-even, infinities and NaN; executable).  The instance
    [Exact] reads the same text over the real numbers: it is the
    idealisation in which the balance identity of the MIS weight holds, it
    models no run of the program, and it appears only in statements that say
    "in exact arithmetic", beside what binary64 numbers do instead. *)

From Stdlib Require Import ZArith Reals Lra Lia Floats.SpecFloat.
From stdpp Require Import gmap strings list fin_maps.

(** * Numeric interface *)

Class Arith := {
  double : Type;
  float : Type;
  d0 : double;                               (* 0.0 *)
  d1 : double;                               (* 1.0 *)
  dadd : double -> double -> double;
  dsub : double -> double -> double;
  dmul : double -> double -> double;
  ddiv : double -> double -> double;
  dltb : double -> double -> bool;           (* a < b *)
  f0 : float;                                (* 0.0f *)
  f1 : float;                                (* 1.0f *)
  fadd : float -> float -> float;
  fmul : float -> float -> float;
  to_float : double -> float;                (* static_cast<float> *)
  of_size_t : Z -> double;                   (* static_cast<double> of a size_t *)
  fadd_f0_f0 : fadd f0 f0 = f0;
  to_float_d1 : to_float d1 = f1
}.

(** ** IEEE 754 instance: binary64 for [double], binary32 for [float] *)

Module Binary.

Definition prec64 : Z := 53.
Definition emax64 : Z := 1024.
Definition prec32 : Z := 24.
Definition emax32 : Z := 128.

Definition zero : spec_float := S754_zero false.
Definition one64 : spec_float := SFone prec64 emax64.
Definition one32 : spec_float := SFone prec32 emax32.
Definition nan : spec_float := S754_nan.

(** Conversion of a binary64 value to binary32 (round to nearest even). *)
Definition narrow (x : spec_float) : spec_float :=
  match x with
  | S754_finite s m e => binary_round prec32 emax32 s m e
  | _ => x
  end.

Definition of_Z (z : Z) : spec_float := binary_normalize prec64 emax64 z 0 false.

(** A finite value that is not negative: [+0], [-0] or a positive finite
    number. *)
Definition finite_nonneg (x : spec_float) : bool :=
  match x with
  | S754_zero _ => true
  | S754_finite s _ _ => negb s
  | _ => false
  end.

End Binary.

Lemma binary32_add_zero :
  SFadd Binary.prec32 Binary.emax32 Binary.zero Binary.zero = Binary.zero.
Proof. reflexivity. Qed.

Lemma narrow_one : Binary.narrow Binary.one64 = Binary.one32.
Proof. reflexivity. Qed.

#[export] Instance IEEE : Arith := {|
  double := spec_float;
  float := spec_float;
  d0 := Binary.zero;
  d1 := Binary.one64;
  dadd := SFadd Binary.prec64 Binary.emax64;
  dsub := SFsub Binary.prec64 Binary.emax64;
  dmul := SFmul Binary.prec64 Binary.emax64;
  ddiv := SFdiv Binary.prec64 Binary.emax64;
  dltb := SFltb;
  f0 := Binary.zero;
  f1 := Binary.one32;
  fadd := SFadd Binary.prec32 Binary.emax32;
  fmul := SFmul Binary.prec32 Binary.emax32;
  to_float := Binary.narrow;
  of_size_t := Binary.of_Z;
  fadd_f0_f0 := binary32_add_zero;
  to_float_d1 := narrow_one
|}.

(** ** Exact instance: real numbers

    Not the arithmetic of the program: division by zero is not an error and
    gives no NaN here, and nothing rounds, underflows or overflows.  *)



(** Every component of a binary32 spectrum is finite and not negative. *)
Definition all_finite_nonneg (s : list spec_float) : bool :=
  forallb Binary.finite_nonneg s.

(** A binary value above zero: a positive finite number or plus infinity. *)
Definition positive_value (x : spec_float) : bool :=
  match x with
  | S754_finite false _ _ | S754_infinity false => true
  | _ => false
  end.

(** A finite binary value, zero included. *)
Definition finite_value (x : spec_float) : bool :=
  match x with
  | S754_zero _ | S754_finite _ _ _ => true
  | _ => false
  end.

(** Every component is NaN. *)
Definition all_nan (s : list spec_float) : Prop := Forall (eq S754_nan) s.





(** * foundation helpers used by the engine *)

Module std.

(** [std::max(a, b)] is [(a < b) ? b : a]. *)
Definition max {A : Arith} (a b : double) : double :=
  if dltb a b then b else a.

End std.

Module foundation.

Record Vector3d {A : Arith} := { vx : double; vy : double; vz : double }.

(** Modelled from the spec: [foundation::dot] (foundation/math/vector.h is
    not among the sources), the dot product of two vectors, which the
    specification calls the cosine between the (unit) directions. *)
Definition dot {A : Arith} (a b : Vector3d) : double :=
  dadd (dadd (dmul (vx a) (vx b)) (dmul (vy a) (vy b))) (dmul (vz a) (vz b)).

(** Modelled from the spec: [foundation::square] (foundation/math/scalar.h
    is not among the sources), "squared travel distance". *)
Definition square {A : Arith} (x : double) : double := dmul x x.

(** Modelled from the spec: [foundation::mis_power2] (foundation/math/mis.h
    is not among the sources), the power-two MIS weight
    [p1^2 / (p1^2 + p2^2)] of the first of two sampling strategies. *)
Definition mis_power2 {A : Arith} (q1 q2 : double) : double :=
  let q1_pow := dmul q1 q1 in
  let q2_pow := dmul q2 q2 in
  ddiv q1_pow (dadd q1_pow q2_pow).

(** [size_t] arithmetic wraps around at 64 bits. *)
Definition size_t_wrap (z : Z) : Z := z mod 2 ^ 64.

End foundation.

Module Population.

(** Modelled from the spec: [foundation::Population<size_t>]
    (foundation/math/population.h is not among the sources), the
    "running distribution (min/max/mean/standard-deviation)" of the values
    inserted so far.  The mean is kept as a running mean, updated on every
    insertion; the deviation, about which nothing is claimed, is left out. *)
Record Population {A : Arith} := {
  m_size : Z;
  m_min : Z;
  m_max : Z;
  m_mean : double
}.

(** Modelled from the spec: a distribution into which nothing was inserted. *)
Definition empty {A : Arith} : Population :=
  {| m_size := 0; m_min := 0; m_max := 0; m_mean := d0 |}.

(** Modelled from the spec: [Population::insert]; the first value is both
    extrema, later values update them, and the mean moves towards the value
    by the residual divided by the new size. *)
Definition insert {A : Arith} (val : Z) (p : Population) : Population :=
  let new_size := foundation.size_t_wrap (m_size p + 1) in
  let residual := dsub (of_size_t val) (m_mean p) in
  {| m_size := new_size;
     m_min := if (m_size p =? 0)%Z then val else Z.min (m_min p) val;
     m_max := if (m_size p =? 0)%Z then val else Z.max (m_max p) val;
     m_mean := dadd (m_mean p) (ddiv residual (of_size_t new_size)) |}.

Definition get_size {A : Arith} (p : Population) : Z := m_size p.
Definition get_min {A : Arith} (p : Population) : Z := m_min p.
Definition get_max {A : Arith} (p : Population) : Z := m_max p.
Definition get_avg {A : Arith} (p : Population) : double := m_mean p.

End Population.

(** * renderer: data model *)

Import foundation.

(** A [Spectrum] is a fixed-length vector of [float] components. *)
Abbreviation Spectrum := (list float).

(** [Spectrum::operator+=], component by component. *)
Definition spectrum_add {A : Arith} (a b : Spectrum) : Spectrum :=
  zip_with fadd a b.

(** [Spectrum::operator*=(float)], every component scaled. *)
Definition spectrum_scale {A : Arith} (a : Spectrum) (w : float) : Spectrum :=
  (fun x => fmul x w) <$> a.

Definition spectrum_zero {A : Arith} (n : nat) : Spectrum := replicate n f0.

(** Modelled from the spec: [BSDF::Mode] (renderer/modeling/bsdf/bsdf.h is
    not among the sources), the scattering modes Diffuse, Glossy and
    Specular. *)
Inductive Mode := Diffuse | Glossy | Specular.

(** Types the engine only passes around. *)
Class Opaque := {
  SamplingContext : Type;
  ShadingContext : Type;
  TextureCache : Type;
  Intersector : Type;
  Scene : Type;
  Basis3d : Type;
  InputParams : Type;
  InputArray : Type;
  Data : Type;                    (* const void*: evaluated input values *)
  BSDF : Type;
  EDF : Type;
  LightSample : Type;
  LightSampler : Type
}.

(** [Material::get_edf] returns a null pointer when the material does not
    emit light. *)
Record Material {O : Opaque} := { get_edf : option EDF }.

Record ShadingPoint {A : Arith} {O : Opaque} := {
  get_point : Vector3d;
  get_geometric_normal : Vector3d;
  get_shading_normal : Vector3d;
  get_shading_basis : Basis3d;
  get_material : Material;
  get_input_params : InputParams;
  get_scene : Scene;
  get_distance : double
}.

Abbreviation LightSampleVector := (list LightSample).

(** [ParamArray], read through [get_optional<size_t>]: the options that were
    supplied, by name. *)
Abbreviation ParamArray := (gmap string Z).

(** Modelled from the spec: [ParamArray::get_optional<size_t>] (its
    definition is not among the sources): the value supplied for the option,
    or the default when the option is absent. *)
Definition get_optional (params : ParamArray) (name : string) (default : Z) : Z :=
  match params !! name with
  | Some value => value
  | None => default
  end.

(** [DRTLightingEngine::Parameters]. *)
Record Parameters := {
  m_max_reflection_depth : Z;
  m_max_refraction_depth : Z;
  m_minimum_path_length : Z;
  m_dl_sample_count : Z;
  m_ibl_bsdf_sample_count : Z;
  m_ibl_env_sample_count : Z
}.

Definition Parameters_new (params : ParamArray) : Parameters :=
  {| m_max_reflection_depth := get_optional params "max_reflection_depth" 8;
     m_max_refraction_depth := get_optional params "max_refraction_depth" 8;
     m_minimum_path_length := get_optional params "minimum_path_length" 3;
     m_dl_sample_count := get_optional params "dl_samples" 1;
     m_ibl_bsdf_sample_count := get_optional params "ibl_bsdf_samples" 2;
     m_ibl_env_sample_count := get_optional params "ibl_env_samples" 2 |}.


(** [DRTLightingEngine::Statistics]. *)
Record Statistics {A : Arith} := {
  m_path_count : Z;
  m_ray_tree_depth : Population.Population
}.

Definition Statistics_new {A : Arith} : Statistics :=
  {| m_path_count := 0; m_ray_tree_depth := Population.empty |}.

(** What the generic path tracer meets along a path: a vertex on a surface,
    handed to [get_vertex_radiance], or a ray that left the scene, handed to
    [get_environment_radiance]. *)
Inductive PathEvent {A : Arith} {O : Opaque} :=
| Hit (shading_point : ShadingPoint) (outgoing : Vector3d)
      (bsdf : BSDF) (bsdf_data : Data) (bsdf_mode : Mode) (bsdf_prob : double)
| Miss (shading_point : ShadingPoint) (outgoing : Vector3d).

(** The collaborators of the engine, outside the sources. *)
Class Collaborators {A : Arith} {O : Opaque} := {
  (* number of components of a Spectrum *)
  Samples : nat;
  get_texture_cache : ShadingContext -> TextureCache;
  get_intersector : ShadingContext -> Intersector;
  (* LightSampler::sample appends to the vector it is given *)
  LightSampler_sample :
    LightSampler -> SamplingContext -> Vector3d -> Vector3d -> Z ->
    LightSampleVector -> SamplingContext * LightSampleVector;
  LightSampler_evaluate_pdf : LightSampler -> ShadingPoint -> double;
  (* the radiance argument is the reference the estimator writes to *)
  compute_direct_lighting :
    SamplingContext -> ShadingContext -> Vector3d -> Vector3d -> Basis3d ->
    Vector3d -> BSDF -> Data -> LightSampleVector -> Spectrum -> ShadingPoint ->
    SamplingContext * Spectrum;
  compute_image_based_lighting :
    SamplingContext -> ShadingContext -> Scene -> Vector3d -> Vector3d ->
    Basis3d -> Vector3d -> BSDF -> Data -> Z -> Z -> ShadingPoint ->
    SamplingContext * Spectrum;
  EDF_get_inputs : EDF -> InputArray;
  InputEvaluator_evaluate : TextureCache -> InputArray -> InputParams -> Data;
  EDF_evaluate : EDF -> Data -> Vector3d -> Basis3d -> Vector3d -> Spectrum;
  (* the vertices the path tracer visits from a shading point: intersection,
     BSDF sampling and Russian roulette decide them *)
  traced_path :
    Z -> SamplingContext -> ShadingContext -> ShadingPoint -> list PathEvent;
  compute_ambient_occlusion :
    SamplingContext -> Intersector -> Vector3d -> Vector3d -> Basis3d ->
    double -> Z -> ShadingPoint -> SamplingContext * double
}.

(** The same collaborators, with another density for the light sampler. *)
Definition with_evaluate_pdf {A : Arith} {O : Opaque} (C : Collaborators)
    (pdf : LightSampler -> ShadingPoint -> double) : Collaborators :=
  {| Samples := Samples;
     get_texture_cache := get_texture_cache;
     get_intersector := get_intersector;
     LightSampler_sample := LightSampler_sample;
     LightSampler_evaluate_pdf := pdf;
     compute_direct_lighting := compute_direct_lighting;
     compute_image_based_lighting := compute_image_based_lighting;
     EDF_get_inputs := EDF_get_inputs;
     InputEvaluator_evaluate := InputEvaluator_evaluate;
     EDF_evaluate := EDF_evaluate;
     traced_path := traced_path;
     compute_ambient_occlusion := compute_ambient_occlusion |}.

(** * renderer/kernel/lighting/drt/drt.cpp *)

Section DRT.
Context {A : Arith} {O : Opaque} {C : Collaborators}.

(** [foundation::clear_keep_memory]: the vector is emptied, its storage
    kept. *)
Definition clear_keep_memory (v : LightSampleVector) : LightSampleVector := [].

(** [DRTLightingEngine::PathVertexVisitor]. *)
Record PathVertexVisitor := {
  v_light_sampler : LightSampler;
  v_params : Parameters;
  v_shading_context : ShadingContext;
  v_texture_cache : TextureCache;
  v_light_samples : LightSampleVector
}.

Definition PathVertexVisitor_new (light_sampler : LightSampler)
    (params : Parameters) (shading_context : ShadingContext) : PathVertexVisitor :=
  {| v_light_sampler := light_sampler;
     v_params := params;
     v_shading_context := shading_context;
     v_texture_cache := get_texture_cache shading_context;
     v_light_samples := [] |}.

Definition set_light_samples (v : PathVertexVisitor) (l : LightSampleVector)
    : PathVertexVisitor :=
  {| v_light_sampler := v_light_sampler v;
     v_params := v_params v;
     v_shading_context := v_shading_context v;
     v_texture_cache := v_texture_cache v;
     v_light_samples := l |}.

(** The local [px] of [get_vertex_radiance]: the probability density with
    respect to surface area of the direction obtained through sampling of
    the BSDF. *)
Definition px (bsdf_prob : double) (outgoing shading_normal : Vector3d)
    (distance : double) : double :=
  let px := bsdf_prob in
  let px := dmul px (std.max (dot outgoing shading_normal) d0) in
  let px := ddiv px (square distance) in
  px.

(** [PathVertexVisitor::get_vertex_radiance].  The visitor (its light sample
    buffer), the sampling context and the output radiance are passed in and
    returned. *)
Definition get_vertex_radiance (v : PathVertexVisitor)
    (sampling_context : SamplingContext) (shading_point : ShadingPoint)
    (outgoing : Vector3d) (bsdf : BSDF) (bsdf_data : Data) (bsdf_mode : Mode)
    (bsdf_prob : double) (vertex_radiance : Spectrum)
    : PathVertexVisitor * SamplingContext * Spectrum :=
  let point := get_point shading_point in
  let geometric_normal := get_geometric_normal shading_point in
  let shading_normal := get_shading_normal shading_point in
  let shading_basis := get_shading_basis shading_point in
  let material := get_material shading_point in
  let input_params := get_input_params shading_point in
  (* Generate light samples. *)
  let '(sampling_context, light_samples) :=
    LightSampler_sample (v_light_sampler v) sampling_context point
      shading_normal (m_dl_sample_count (v_params v))
      (clear_keep_memory (v_light_samples v)) in
  let v := set_light_samples v light_samples in
  (* Compute direct lighting. *)
  let '(sampling_context, vertex_radiance) :=
    compute_direct_lighting sampling_context (v_shading_context v) point
      geometric_normal shading_basis outgoing bsdf bsdf_data light_samples
      vertex_radiance shading_point in
  (* Compute image-based lighting. *)
  let '(sampling_context, ibl_radiance) :=
    compute_image_based_lighting sampling_context (v_shading_context v)
      (get_scene shading_point) point geometric_normal shading_basis outgoing
      bsdf bsdf_data (m_ibl_bsdf_sample_count (v_params v))
      (m_ibl_env_sample_count (v_params v)) shading_point in
  let vertex_radiance := spectrum_add vertex_radiance ibl_radiance in
  (* Retrieve the EDF. *)
  match get_edf material with
  | Some edf =>
      (* Evaluate the input values of the EDF (if any). *)
      let edf_data :=
        InputEvaluator_evaluate (v_texture_cache v) (EDF_get_inputs edf)
          input_params in
      (* Compute the emitted radiance. *)
      let emitted_radiance :=
        EDF_evaluate edf edf_data geometric_normal shading_basis outgoing in
      let emitted_radiance :=
        match bsdf_mode with
        | Specular => emitted_radiance
        | _ =>
            let sample_probability :=
              LightSampler_evaluate_pdf (v_light_sampler v) shading_point in
            let px :=
              px bsdf_prob outgoing shading_normal (get_distance shading_point) in
            (* Multiply the emitted radiance by the MIS weight. *)
            let mis_weight := mis_power2 px sample_probability in
            spectrum_scale emitted_radiance (to_float mis_weight)
        end in
      (v, sampling_context, spectrum_add vertex_radiance emitted_radiance)
  | None => (v, sampling_context, vertex_radiance)
  end.

(** [PathVertexVisitor::get_environment_radiance]: the result and the output
    argument as the call leaves it. *)
Definition get_environment_radiance (v : PathVertexVisitor)
    (shading_point : ShadingPoint) (outgoing : Vector3d)
    (environment_radiance : Spectrum) : bool * Spectrum :=
  (false, environment_radiance).

(** Modelled from the spec: [PathTracer::trace]
    (renderer/kernel/lighting/pathtracer.h is not among the sources).  The
    tracer "recursively extends a transport path, invoking the Path Vertex
    Visitor at each vertex", which "accumulates into a caller-supplied
    radiance accumulator"; a ray that escapes the scene asks for the
    environment radiance and "falls back to a zero contribution" when it is
    not available; the returned radiance is zero-initialized.  The weighting
    of a vertex by the path throughput, which the specification does not
    describe, is not modelled. *)
Fixpoint visit_path (v : PathVertexVisitor) (path : list PathEvent)
    (sampling_context : SamplingContext) (radiance : Spectrum)
    : SamplingContext * Spectrum :=
  match path with
  | [] => (sampling_context, radiance)
  | Hit shading_point outgoing bsdf bsdf_data bsdf_mode bsdf_prob :: path =>
      let '(v, sampling_context, vertex_radiance) :=
        get_vertex_radiance v sampling_context shading_point outgoing bsdf
          bsdf_data bsdf_mode bsdf_prob (spectrum_zero Samples) in
      visit_path v path sampling_context (spectrum_add radiance vertex_radiance)
  | Miss shading_point outgoing :: _ =>
      let '(available, environment_radiance) :=
        get_environment_radiance v shading_point outgoing (spectrum_zero Samples) in
      (sampling_context,
       if available then spectrum_add radiance environment_radiance else radiance)
  end.

(** The part of a path the tracer visits: it stops at the first ray that
    leaves the scene. *)
Fixpoint visited (path : list PathEvent) : list PathEvent :=
  match path with
  | [] => []
  | Hit shading_point outgoing bsdf bsdf_data bsdf_mode bsdf_prob :: path =>
      Hit shading_point outgoing bsdf bsdf_data bsdf_mode bsdf_prob
        :: visited path
  | Miss shading_point outgoing :: _ => [Miss shading_point outgoing]
  end.

(** Modelled from the spec: the entry point of the tracer; it returns the
    radiance of the path and the number of vertices it visited. *)
Definition PathTracer_trace (v : PathVertexVisitor) (minimum_path_length : Z)
    (sampling_context : SamplingContext) (shading_context : ShadingContext)
    (shading_point : ShadingPoint) (radiance : Spectrum)
    : SamplingContext * Spectrum * Z :=
  let path :=
    traced_path minimum_path_length sampling_context shading_context
      shading_point in
  let '(sampling_context, radiance) :=
    visit_path v path sampling_context (spectrum_zero Samples) in
  (sampling_context, radiance, Z.of_nat (length (visited path))).

(** [DRTLightingEngine]. *)
Record DRTLightingEngine := {
  m_light_sampler : LightSampler;
  m_params : Parameters;
  m_stats : Statistics
}.

Definition DRTLightingEngine_new (light_sampler : LightSampler)
    (params : ParamArray) : DRTLightingEngine :=
  {| m_light_sampler := light_sampler;
     m_params := Parameters_new params;
     m_stats := Statistics_new |}.

(** [DRTLightingEngine::compute_lighting]. *)
Definition compute_lighting (e : DRTLightingEngine)
    (sampling_context : SamplingContext) (shading_context : ShadingContext)
    (shading_point : ShadingPoint) (radiance : Spectrum)
    : DRTLightingEngine * SamplingContext * Spectrum :=
  let vertex_visitor :=
    PathVertexVisitor_new (m_light_sampler e) (m_params e) shading_context in
  let '(sampling_context, radiance, path_length) :=
    PathTracer_trace vertex_visitor (m_minimum_path_length (m_params e))
      sampling_context shading_context shading_point radiance in
  (* Update statistics. *)
  let stats :=
    {| m_path_count := size_t_wrap (m_path_count (m_stats e) + 1);
       m_ray_tree_depth :=
         Population.insert path_length (m_ray_tree_depth (m_stats e)) |} in
  ({| m_light_sampler := m_light_sampler e;
      m_params := m_params e;
      m_stats := stats |},
   sampling_context, radiance).

(** The radiance of a vertex before its emission is added: what the light
    samples, the direct lighting estimator and the image-based lighting
    estimator leave in the accumulator. *)
Definition lighting_before_emission (v : PathVertexVisitor)
    (sampling_context : SamplingContext) (shading_point : ShadingPoint)
    (outgoing : Vector3d) (bsdf : BSDF) (bsdf_data : Data)
    (vertex_radiance : Spectrum) : Spectrum :=
  let sampled :=
    LightSampler_sample (v_light_sampler v) sampling_context
      (get_point shading_point) (get_shading_normal shading_point)
      (m_dl_sample_count (v_params v)) [] in
  let direct :=
    compute_direct_lighting sampled.1 (v_shading_context v)
      (get_point shading_point) (get_geometric_normal shading_point)
      (get_shading_basis shading_point) outgoing bsdf bsdf_data sampled.2
      vertex_radiance shading_point in
  let ibl :=
    compute_image_based_lighting direct.1 (v_shading_context v)
      (get_scene shading_point) (get_point shading_point)
      (get_geometric_normal shading_point) (get_shading_basis shading_point)
      outgoing bsdf bsdf_data (m_ibl_bsdf_sample_count (v_params v))
      (m_ibl_env_sample_count (v_params v)) shading_point in
  spectrum_add direct.2 ibl.2.

(** The radiance the EDF of a vertex emits towards [outgoing]. *)
Definition emitted_radiance_at (v : PathVertexVisitor)
    (shading_point : ShadingPoint) (outgoing : Vector3d) (edf : EDF) : Spectrum :=
  EDF_evaluate edf
    (InputEvaluator_evaluate (v_texture_cache v) (EDF_get_inputs edf)
       (get_input_params shading_point))
    (get_geometric_normal shading_point) (get_shading_basis shading_point)
    outgoing.

(** The conversion of a density from solid angle measure to area measure, in
    the words of the specification: multiplied by [max(cosine, 0)] and
    divided by the squared distance. *)
Definition area_measure (solid_angle_density cosine distance : double) : double :=
  ddiv (dmul solid_angle_density (std.max cosine d0)) (dmul distance distance).

(** The light sampler yields no light sample. *)
Definition no_light_sample : Prop :=
  forall sampler sc point normal count,
    (LightSampler_sample sampler sc point normal count []).2 = [].

(** Without light samples the direct lighting estimator leaves a zero
    radiance as it is. *)
Definition no_direct_lighting : Prop :=
  forall sc shc point normal basis outgoing bsdf bsdf_data shading_point,
    (compute_direct_lighting sc shc point normal basis outgoing bsdf bsdf_data
       [] (spectrum_zero Samples) shading_point).2 = spectrum_zero Samples.

(** The environment contributes nothing. *)
Definition no_environment_lighting : Prop :=
  forall sc shc scene point normal basis outgoing bsdf bsdf_data n1 n2
         shading_point,
    (compute_image_based_lighting sc shc scene point normal basis outgoing
       bsdf bsdf_data n1 n2 shading_point).2 = spectrum_zero Samples.

(** A vertex that receives no light when the visitor [v] visits it: its
    material has no EDF and, whatever the state of the sampling context, the
    direct lighting and image-based lighting estimators leave a zero radiance
    as it is. *)
Definition unlit_vertex (v : PathVertexVisitor) (event : PathEvent) : Prop :=
  match event with
  | Hit shading_point outgoing bsdf bsdf_data _ _ =>
      get_edf (get_material shading_point) = None /\
      forall sc,
        lighting_before_emission v sc shading_point outgoing bsdf bsdf_data
          (spectrum_zero Samples) = spectrum_zero Samples
  | Miss _ _ => True
  end.

(** A sequence of calls of [compute_lighting] on one engine. *)
Definition compute_lighting_calls (e : DRTLightingEngine)
    (calls : list (SamplingContext * ShadingContext * ShadingPoint))
    : DRTLightingEngine :=
  fold_left
    (fun e '(sampling_context, shading_context, shading_point) =>
       (compute_lighting e sampling_context shading_context shading_point
          (spectrum_zero Samples)).1.1)
    calls e.

End DRT.

(** * renderer/kernel/aov/aovaccumulator.h *)

Module AOVAccumulatorContainer.
Section Container.

(** An owned [AOVAccumulator*]. *)
Context {AOVAccumulator : Type}.

(** [MaxAOVCount] (renderer/kernel/aov/aovsettings.h is not among the
    sources): the fixed capacity of the array of accumulators. *)
Variable MaxAOVCount : nat.

(** The members of the class: [m_size] never exceeds [MaxAOVCount], so that
    the [size_t] never wraps; a slot that was never written is [None]. *)
Record AOVAccumulatorContainer := {
  m_size : nat;
  m_accumulators : list (option AOVAccumulator)
}.

(** Modelled from the spec: the constructor (renderer/kernel/aov/
    aovaccumulator.cpp is not among the sources) leaves a registry that holds
    no accumulator. *)
Definition empty : AOVAccumulatorContainer :=
  {| m_size := 0; m_accumulators := replicate MaxAOVCount None |}.

(** Modelled from the spec: [AOVAccumulatorContainer::insert]
    (renderer/kernel/aov/aovaccumulator.cpp is not among the sources):
    "bounded-capacity registry", "addressed by insertion order", where
    "insert fails (returns a failure indicator) once capacity is
    exhausted". *)
Definition insert (c : AOVAccumulatorContainer) (aov_accum : AOVAccumulator)
    : bool * AOVAccumulatorContainer :=
  if decide (m_size c = MaxAOVCount) then (false, c)
  else
    (true,
     {| m_size := S (m_size c);
        m_accumulators := <[m_size c := Some aov_accum]> (m_accumulators c) |}).

(** The accumulators the container holds, in insertion order. *)
Definition registered (c : AOVAccumulatorContainer) : list (option AOVAccumulator) :=
  take (m_size c) (m_accumulators c).

(** Successive calls of [insert]: the indicators returned and the container
    they leave. *)
Fixpoint insert_all (c : AOVAccumulatorContainer) (accums : list AOVAccumulator)
    : list bool * AOVAccumulatorContainer :=
  match accums with
  | [] => ([], c)
  | a :: accums =>
      let '(ok, c) := insert c a in
      let '(oks, c) := insert_all c accums in
      (ok :: oks, c)
  end.

(** The state of a container between two calls. *)
Definition well_formed (c : AOVAccumulatorContainer) : Prop :=
  m_size c <= MaxAOVCount /\ length (m_accumulators c) = MaxAOVCount.

End Container.
End AOVAccumulatorContainer.

(** * renderer/modeling/surfaceshader/aosurfaceshader.cpp *)

Section AOSurfaceShader.
Context {A : Arith} {O : Opaque} {C : Collaborators}.

(** [foundation::ColorSpace] and its enumerator [ColorSpaceLinearRGB]
    (foundation/image/colorspace.h is not among the sources). *)
Context {ColorSpace : Type}.
Variable ColorSpaceLinearRGB : ColorSpace.

Record ShadingResult := {
  m_color_space : ColorSpace;
  m_color : Spectrum;
  m_alpha : float
}.

Record AOSurfaceShader := {
  m_name : string;
  m_samples : Z;
  m_max_distance : double
}.

(** [AOSurfaceShader::evaluate]: the sampling context and the shading result
    are passed in and returned. *)
Definition evaluate (shader : AOSurfaceShader)
    (sampling_context : SamplingContext) (shading_context : ShadingContext)
    (shading_point : ShadingPoint) (shading_result : ShadingResult)
    : SamplingContext * ShadingResult :=
  (* Set color space to linear RGB. *)
  let color_space := ColorSpaceLinearRGB in
  (* Set alpha channel to full opacity. *)
  let alpha := to_float d1 in
  (* Compute ambient occlusion. *)
  let '(sampling_context, occlusion) :=
    compute_ambient_occlusion sampling_context
      (get_intersector shading_context) (get_point shading_point)
      (get_geometric_normal shading_point) (get_shading_basis shading_point)
      (m_max_distance shader) (m_samples shader) shading_point in
  (* Return a gray scale value proportional to the accessibility. *)
  let accessibility := to_float (dsub d1 occlusion) in
  let color := m_color shading_result in
  let color := <[0%nat := accessibility]> color in
  let color := <[1%nat := accessibility]> color in
  let color := <[2%nat := accessibility]> color in
  (sampling_context,
   {| m_color_space := color_space; m_color := color; m_alpha := alpha |}).

(** The occlusion the shared primitive returns for a call of [evaluate]. *)
Definition occlusion_at (shader : AOSurfaceShader)
    (sampling_context : SamplingContext) (shading_context : ShadingContext)
    (shading_point : ShadingPoint) : double :=
  (compute_ambient_occlusion sampling_context
     (get_intersector shading_context) (get_point shading_point)
     (get_geometric_normal shading_point) (get_shading_basis shading_point)
     (m_max_distance shader) (m_samples shader) shading_point).2.

End AOSurfaceShader.

(** * The factory of lighting engines (drt.cpp) *)

Section Factory.
Context {A : Arith} {O : Opaque}.

(** [DRTLightingEngineFactory]: the light sampler and the parameter array
    its constructor stores. *)
Record DRTLightingEngineFactory := {
  f_light_sampler : LightSampler;
  f_params : ParamArray
}.

Definition DRTLightingEngineFactory_new (light_sampler : LightSampler)
    (params : ParamArray) : DRTLightingEngineFactory :=
  {| f_light_sampler := light_sampler; f_params := params |}.

(** [DRTLightingEngineFactory::create()]. *)
Definition create (f : DRTLightingEngineFactory) : DRTLightingEngine :=
  DRTLightingEngine_new (f_light_sampler f) (f_params f).

(** [DRTLightingEngineFactory::create(light_sampler, params)]. *)
Definition create_with (f : DRTLightingEngineFactory)
    (light_sampler : LightSampler) (params : ParamArray) : DRTLightingEngine :=
  DRTLightingEngine_new light_sampler params.

End Factory.


(** On binary numbers: the direct lighting estimator, started from a zero
    radiance, the image-based lighting estimator and the EDF return radiances
    whose components are finite and not negative. *)
Definition finite_nonneg_estimates {O : Opaque} (C : @Collaborators IEEE O)
    : Prop :=
  (forall sc shc point normal basis outgoing bsdf bsdf_data samples sp,
     all_finite_nonneg
       (compute_direct_lighting sc shc point normal basis outgoing bsdf
          bsdf_data samples (spectrum_zero Samples) sp).2 = true) /\
  (forall sc shc scene point normal basis outgoing bsdf bsdf_data n1 n2 sp,
     all_finite_nonneg
       (compute_image_based_lighting sc shc scene point normal basis outgoing
          bsdf bsdf_data n1 n2 sp).2 = true) /\
  (forall edf edf_data normal basis outgoing,
     all_finite_nonneg (EDF_evaluate edf edf_data normal basis outgoing) = true).

(** Two parameter records agree on what the engine hands to the tracer, the
    light sampler and the estimators: the minimum path length and the three
    sample counts. *)
Definition same_sampling (p p' : Parameters) : Prop :=
  m_minimum_path_length p = m_minimum_path_length p' /\
  m_dl_sample_count p = m_dl_sample_count p' /\
  m_ibl_bsdf_sample_count p = m_ibl_bsdf_sample_count p' /\
  m_ibl_env_sample_count p = m_ibl_env_sample_count p'.

(** Two visitors agree on everything [get_vertex_radiance] reads. *)
Definition visitors_agree {O : Opaque} (v v' : PathVertexVisitor) : Prop :=
  v_light_sampler v = v_light_sampler v' /\
  same_sampling (v_params v) (v_params v') /\
  v_shading_context v = v_shading_context v' /\
  v_texture_cache v = v_texture_cache v'.

(** * A concrete scene, on which the embedding is evaluated *)

Module Scene.

Definition opaque : Opaque :=
  {| SamplingContext := unit; ShadingContext := unit; TextureCache := unit;
     Intersector := unit; Scene := unit; Basis3d := unit; InputParams := unit;
     InputArray := unit; Data := unit; BSDF := unit; EDF := unit;
     LightSample := unit; LightSampler := unit |}.

(** Spectra of three components; a light sampler that yields no sample and
    whose density is [pdf] everywhere; estimators that find no light; an EDF
    that emits [emission] in every band; [path] is what the tracer visits
    from a point and [occlusion] what the ambient occlusion primitive
    returns. *)
Definition collaborators {A : Arith} (pdf : double) (emission : float)
    (path : @ShadingPoint A opaque -> list (@PathEvent A opaque))
    (occlusion : double)
    : @Collaborators A opaque :=
  @Build_Collaborators A opaque
    3
    (fun _ => tt)
    (fun _ => tt)
    (fun _ sc _ _ _ samples => (sc, samples))
    (fun _ _ => pdf)
    (fun sc _ _ _ _ _ _ _ _ _ _ => (sc, spectrum_zero 3))
    (fun sc _ _ _ _ _ _ _ _ _ _ _ => (sc, spectrum_zero 3))
    (fun _ => tt)
    (fun _ _ _ => tt)
    (fun _ _ _ _ _ => replicate 3 emission)
    (fun _ _ _ shading_point => path shading_point)
    (fun sc _ _ _ _ _ _ _ => (sc, occlusion)).

Definition up {A : Arith} : Vector3d := {| vx := d0; vy := d0; vz := d1 |}.

(** A point seen along its normal, [distance] away, on a material with or
    without an EDF. *)
Definition point_at {A : Arith} (distance : double) (edf : option unit)
    : @ShadingPoint A opaque :=
  @Build_ShadingPoint A opaque up up up tt (@Build_Material opaque edf) tt tt
    distance.

Definition visitor : @PathVertexVisitor opaque :=
  PathVertexVisitor_new (C := collaborators (A := IEEE) d0 f0 (fun _ => []) d0)
    tt (Parameters_new ∅) tt.

(** A light source two units away, in a scene whose light sampler gives every
    point the density 1 and whose emitters emit 1 in every band. *)
Definition emitter : @ShadingPoint IEEE opaque :=
  point_at (A := IEEE) (Binary.of_Z 2) (Some tt).

Definition lit : @Collaborators IEEE opaque :=
  collaborators (A := IEEE) (Binary.of_Z 1) Binary.one32 (fun _ => [])
    Binary.zero.

(** The same light source met at distance 0 by a Diffuse bounce whose BSDF
    sample has probability 0. *)
Definition degenerate : @ShadingPoint IEEE opaque :=
  point_at (A := IEEE) Binary.zero (Some tt).

Definition degenerate_path : list (@PathEvent IEEE opaque) :=
  [Hit degenerate up tt tt Diffuse Binary.zero].

Definition lit_degenerate : @Collaborators IEEE opaque :=
  collaborators (A := IEEE) (Binary.of_Z 1) Binary.one32
    (fun _ => degenerate_path) Binary.zero.

Definition engine : @DRTLightingEngine IEEE opaque :=
  DRTLightingEngine_new (A := IEEE) (O := opaque) tt ∅.

(** A point on a surface that emits nothing, and the two-vertex path traced
    from it in a scene without light. *)
Definition dark_point {A : Arith} : @ShadingPoint A opaque :=
  point_at (A := A) (dadd d1 d1) None.

Definition dark_path {A : Arith} : list (@PathEvent A opaque) :=
  [Hit dark_point up tt tt Specular d0; Hit dark_point up tt tt Glossy d1].

Definition dark : @Collaborators IEEE opaque :=
  collaborators (A := IEEE) Binary.zero Binary.zero (fun _ => dark_path)
    Binary.zero.

(** A scene in which a quarter of the hemisphere above every point is
    occluded, a shader, and a shading result left by another shader. *)
Definition occluded : @Collaborators IEEE opaque :=
  collaborators (A := IEEE) Binary.zero Binary.zero (fun _ => [])
    (SFdiv Binary.prec64 Binary.emax64 (Binary.of_Z 1) (Binary.of_Z 4)).

Inductive ColorSpace := LinearRGB | SRGB.

Definition shader : @AOSurfaceShader IEEE :=
  @Build_AOSurfaceShader IEEE "ao" 16 Binary.one64.

Definition stale_result : @ShadingResult IEEE ColorSpace :=
  @Build_ShadingResult IEEE ColorSpace SRGB
    [Binary.nan; Binary.zero; Binary.one32; Binary.one32] Binary.zero.

(** 3/4 as a binary32 number. *)
Definition three_quarters : spec_float :=
  S754_finite false 12582912%positive (-24)%Z.

(** The direction opposite to the normal, and a scene whose light sampler
    never chooses a point (density 0) while emitters emit 1. *)
Definition down {A : Arith} : Vector3d :=
  {| vx := d0; vy := d0; vz := dsub d0 d1 |}.

Definition unsampled : @Collaborators IEEE opaque :=
  collaborators (A := IEEE) Binary.zero Binary.one32 (fun _ => [])
    Binary.zero.

(** A light source at a distance that is not a number. *)
Definition nowhere : @ShadingPoint IEEE opaque :=
  point_at (A := IEEE) Binary.nan (Some tt).

(** A path that leaves a point that emits nothing by a specular bounce and
    meets the light source, in a scene whose light sampler yields no sample
    and whose estimators find no light. *)
Definition bounce_path (bsdf_mode : Mode) : list (@PathEvent IEEE opaque) :=
  [Hit (dark_point (A := IEEE)) up tt tt Specular Binary.one64;
   Hit emitter up tt tt bsdf_mode Binary.one64].

Definition bounce : @Collaborators IEEE opaque :=
  collaborators (A := IEEE) (Binary.of_Z 1) Binary.one32
    (fun _ => bounce_path Specular) Binary.zero.


(** The largest finite binary32 number, and a scene whose estimators both
    return it in every band. *)
Definition max32 : spec_float := SFmax_float Binary.prec32 Binary.emax32.

Definition blinding : @Collaborators IEEE opaque :=
  @Build_Collaborators IEEE opaque
    3
    (fun _ => tt)
    (fun _ => tt)
    (fun _ sc _ _ _ samples => (sc, samples))
    (fun _ _ => Binary.one64)
    (fun sc _ _ _ _ _ _ _ _ _ _ => (sc, replicate 3 max32))
    (fun sc _ _ _ _ _ _ _ _ _ _ _ => (sc, replicate 3 max32))
    (fun _ => tt)
    (fun _ _ _ => tt)
    (fun _ _ _ _ _ => replicate 3 Binary.zero)
    (fun _ _ _ _ =>
       [Hit (dark_point (A := IEEE)) up tt tt Specular Binary.one64])
    (fun sc _ _ _ _ _ _ _ => (sc, Binary.zero)).




End Scene.

(** * Properties *)

(** ** Rounding keeps the sign *)

Section Rounding.
Variables prec emax : Z.














End Rounding.

(** A finite binary64 number divided by itself is exactly 1. *)
Lemma div_eucl_shift (m : positive) :
  Z.div_eucl (Z.shiftl (Z.pos m) 53) (Z.pos m) = (2 ^ 53, 0)%Z.
Proof.
  rewrite Z.shiftl_mul_pow2 by lia. rewrite Z.mul_comm.
  pose proof (Z.div_mul (2 ^ 53) (Z.pos m) ltac:(lia)) as Hq.
  pose proof (Z.mod_mul (2 ^ 53) (Z.pos m) ltac:(lia)) as Hr.
  unfold Z.div, Z.modulo in Hq, Hr.
  destruct (Z.div_eucl (2 ^ 53 * Z.pos m) (Z.pos m)) as [q r].
  subst. reflexivity.
Qed.

Lemma SFdiv_self (s : bool) (m : positive) (e : Z) :
  SFdiv Binary.prec64 Binary.emax64 (S754_finite s m e) (S754_finite s m e) =
    Binary.one64.
Proof.
  unfold SFdiv, SFdiv_core_binary.
  replace (Zdigits2 (Z.pos m) + e - (Zdigits2 (Z.pos m) + e))%Z with 0%Z by lia.
  replace (e - e)%Z with 0%Z by lia.
  change (Z.min (fexp Binary.prec64 Binary.emax64 0) 0) with (-53)%Z.
  change (0 - -53)%Z with 53%Z. cbv iota.
  rewrite div_eucl_shift.
  replace (new_location (Z.pos m) 0) with loc_Exact
    by (unfold new_location, new_location_even, new_location_odd;
        destruct (Z.even (Z.pos m)); reflexivity).
  replace (xorb s s) with false by (destruct s; reflexivity).
  vm_compute. reflexivity.
Qed.

(** ** The power-two MIS weight *)


Lemma mis_power2_unit (p : spec_float) (s s1 : bool) (m : positive) (e : Z) :
  SFmul Binary.prec64 Binary.emax64 p p = S754_finite s1 m e ->
  mis_power2 (A := IEEE) p (S754_zero s) = Binary.one64.
Proof.
  intros Hq. unfold mis_power2. cbn [dmul ddiv dadd IEEE]. rewrite Hq.
  replace (SFmul Binary.prec64 Binary.emax64 (S754_zero s) (S754_zero s))
    with (S754_zero false) by (destruct s; reflexivity).
  cbn [SFadd]. apply SFdiv_self.
Qed.





(** On binary64 numbers the weight of a strategy whose rival has density 0 is
    exactly 1, and two equal densities weigh one half each. *)
Example mis_power2_binary64 :
  mis_power2 (A := IEEE) (Binary.of_Z 3) Binary.zero = Binary.one64 /\
  dadd (mis_power2 (A := IEEE) (Binary.of_Z 3) (Binary.of_Z 3))
       (mis_power2 (A := IEEE) (Binary.of_Z 3) (Binary.of_Z 3)) = Binary.one64.
Proof. split; vm_compute; reflexivity. Qed.

(** ** The parameters of the engine *)

Open Scope Z_scope.


Lemma get_optional_insert_ne (params : ParamArray) (name name' : string)
    (value d : Z) :
  name ≠ name' ->
  get_optional (<[name := value]> params) name' d = get_optional params name' d.
Proof.
  intros Hne. unfold get_optional. rewrite lookup_insert_ne by assumption.
  reflexivity.
Qed.

Lemma get_optional_insert_eq (params : ParamArray) (name : string) (value d : Z) :
  get_optional (<[name := value]> params) name d = value.
Proof. unfold get_optional. rewrite lookup_insert_eq. reflexivity. Qed.

Lemma get_optional_empty (name : string) (d : Z) :
  get_optional (∅ : ParamArray) name d = d.
Proof. unfold get_optional. rewrite lookup_empty. reflexivity. Qed.


Close Scope Z_scope.

(** ** The registry of AOV accumulators *)

Section ContainerFacts.
Import AOVAccumulatorContainer.
Context {AOVAccumulator : Type}.
Variable MaxAOVCount : nat.

Local Abbreviation container := (@AOVAccumulatorContainer AOVAccumulator).

Lemma well_formed_empty : well_formed MaxAOVCount (empty MaxAOVCount : container).
Proof. split; cbn; [lia | apply length_replicate]. Qed.

Lemma registered_empty : registered (empty MaxAOVCount : container) = [].
Proof. reflexivity. Qed.

Lemma insert_full (c : container) (a : AOVAccumulator) :
  m_size c = MaxAOVCount -> insert MaxAOVCount c a = (false, c).
Proof. intros Hfull. unfold insert. rewrite decide_True by assumption. reflexivity. Qed.

Lemma insert_room (c : container) (a : AOVAccumulator) :
  well_formed MaxAOVCount c -> m_size c <> MaxAOVCount ->
  exists c',
    insert MaxAOVCount c a = (true, c') /\
    well_formed MaxAOVCount c' /\
    m_size c' = S (m_size c) /\
    registered c' = registered c ++ [Some a].
Proof.
  intros [Hle Hlen] Hne. unfold insert. rewrite decide_False by assumption.
  eexists. split; [reflexivity |]. unfold well_formed, registered. cbn.
  rewrite length_insert. repeat split; try lia.
  rewrite (take_S_r _ _ (Some a)).
  - rewrite take_insert_ge by lia. reflexivity.
  - apply list_lookup_insert_eq. lia.
Qed.

Lemma insert_all_spec (accums : list AOVAccumulator) : forall c : container,
  well_formed MaxAOVCount c ->
  (insert_all MaxAOVCount c accums).1 =
    replicate (length accums `min` (MaxAOVCount - m_size c)) true ++
    replicate (length accums - (MaxAOVCount - m_size c)) false /\
  registered (insert_all MaxAOVCount c accums).2 =
    registered c ++ (Some <$> take (MaxAOVCount - m_size c) accums) /\
  well_formed MaxAOVCount (insert_all MaxAOVCount c accums).2.
Proof.
  induction accums as [| a accums IH]; intros c Hwf.
  - cbn. rewrite take_nil, app_nil_r. auto.
  - cbn [insert_all].
    destruct (decide (m_size c = MaxAOVCount)) as [Hfull | Hroom].
    + rewrite insert_full by assumption.
      destruct (IH c Hwf) as (Hoks & Hreg & Hwf').
      destruct (insert_all MaxAOVCount c accums) as [oks c'] eqn:Hrun.
      cbn in *. rewrite Hoks, Hreg.
      replace (MaxAOVCount - m_size c) with 0 by lia.
      rewrite Nat.min_0_r, !Nat.sub_0_r. auto.
    + destruct (insert_room c a Hwf Hroom) as (c1 & Hins & Hwf1 & Hsz & Hreg1).
      rewrite Hins.
      destruct (IH c1 Hwf1) as (Hoks & Hreg & Hwf').
      destruct (insert_all MaxAOVCount c1 accums) as [oks c'] eqn:Hrun.
      cbn in *. rewrite Hoks, Hreg, Hreg1, Hsz.
      destruct Hwf as [Hle _].
      replace (MaxAOVCount - m_size c) with (S (MaxAOVCount - S (m_size c))) by lia.
      cbn. rewrite <- app_assoc. auto.
Qed.

(** C8: on a container of capacity [MaxAOVCount] that holds no accumulator,
    the first [MaxAOVCount] calls of [insert] succeed and every later call
    returns [false]; the container then holds the first [MaxAOVCount]
    accumulators, in insertion order, never more, and a call on a full
    container leaves it as it is. *)
Theorem insert_capacity (accums : list AOVAccumulator) :
  (insert_all MaxAOVCount (empty MaxAOVCount) accums).1 =
    replicate (length accums `min` MaxAOVCount) true ++
    replicate (length accums - MaxAOVCount) false /\
  registered (insert_all MaxAOVCount (empty MaxAOVCount) accums).2 =
    Some <$> take MaxAOVCount accums /\
  m_size (insert_all MaxAOVCount (empty MaxAOVCount) accums).2 <= MaxAOVCount /\
  (forall (c : container) a,
     m_size c = MaxAOVCount -> insert MaxAOVCount c a = (false, c)).
Proof.
  destruct (insert_all_spec accums _ well_formed_empty) as (Hoks & Hreg & Hwf).
  cbn [m_size empty] in Hoks, Hreg. rewrite Nat.sub_0_r in Hoks, Hreg.
  rewrite registered_empty in Hreg.
  repeat split; try assumption.
  - apply Hwf.
  - intros c a. apply insert_full.
Qed.

End ContainerFacts.

(** With capacity 2, of three accumulators the third is refused. *)
Example capacity_two :
  (AOVAccumulatorContainer.insert_all 2 (AOVAccumulatorContainer.empty 2)
     ["beauty"; "depth"; "normal"]).1 = [true; true; false] /\
  AOVAccumulatorContainer.registered
    (AOVAccumulatorContainer.insert_all 2 (AOVAccumulatorContainer.empty 2)
       ["beauty"; "depth"; "normal"]).2 = [Some "beauty"; Some "depth"].
Proof. split; reflexivity. Qed.

(** ** The radiance of a path vertex *)

Section VertexFacts.
Context {A : Arith} {O : Opaque} {C : Collaborators}.

Lemma get_vertex_radiance_eq (v : PathVertexVisitor) (sc : SamplingContext)
    (sp : ShadingPoint) (o : Vector3d) (bsdf : BSDF) (bd : Data) (mode : Mode)
    (prob : double) (r : Spectrum) :
  (get_vertex_radiance v sc sp o bsdf bd mode prob r).2 =
    match get_edf (get_material sp) with
    | Some edf =>
        spectrum_add (lighting_before_emission v sc sp o bsdf bd r)
          match mode with
          | Specular => emitted_radiance_at v sp o edf
          | _ =>
              spectrum_scale (emitted_radiance_at v sp o edf)
                (to_float
                   (mis_power2
                      (px prob o (get_shading_normal sp) (get_distance sp))
                      (LightSampler_evaluate_pdf (v_light_sampler v) sp)))
          end
    | None => lighting_before_emission v sc sp o bsdf bd r
    end.
Proof.
  unfold get_vertex_radiance, lighting_before_emission, emitted_radiance_at,
    clear_keep_memory.
  destruct (LightSampler_sample _ _ _ _ _ _) as [sc1 samples].
  destruct (compute_direct_lighting _ _ _ _ _ _ _ _ _ _ _) as [sc2 direct].
  destruct (compute_image_based_lighting _ _ _ _ _ _ _ _ _ _ _ _) as [sc3 ibl].
  cbn. destruct (get_edf (get_material sp)); [destruct mode |]; reflexivity.
Qed.

End VertexFacts.

(** C1: at a vertex whose material has an EDF, the emitted radiance is added
    to the vertex radiance as it is when the vertex was reached by the
    Specular mode, whatever density the light sampler gives the point, and
    is multiplied by the power-two MIS weight first when the vertex was
    reached by another mode. *)
Theorem emission_weighting {A : Arith} {O : Opaque} (C : Collaborators)
    (v : PathVertexVisitor) (sc : SamplingContext) (sp : ShadingPoint)
    (o : Vector3d) (bsdf : BSDF) (bd : Data) (mode : Mode) (prob : double)
    (r : Spectrum) (edf : EDF) :
  get_edf (get_material sp) = Some edf ->
  (mode = Specular ->
     (get_vertex_radiance v sc sp o bsdf bd mode prob r).2 =
       spectrum_add (lighting_before_emission v sc sp o bsdf bd r)
         (emitted_radiance_at v sp o edf) /\
     forall pdf,
       (get_vertex_radiance (C := with_evaluate_pdf C pdf)
          v sc sp o bsdf bd mode prob r).2 =
       (get_vertex_radiance v sc sp o bsdf bd mode prob r).2) /\
  (mode <> Specular ->
     (get_vertex_radiance v sc sp o bsdf bd mode prob r).2 =
       spectrum_add (lighting_before_emission v sc sp o bsdf bd r)
         (spectrum_scale (emitted_radiance_at v sp o edf)
            (to_float
               (mis_power2
                  (px prob o (get_shading_normal sp) (get_distance sp))
                  (LightSampler_evaluate_pdf (v_light_sampler v) sp))))).
Proof.
  intros Hedf. split.
  - intros ->. split.
    + rewrite get_vertex_radiance_eq, Hedf. reflexivity.
    + intros pdf. rewrite !get_vertex_radiance_eq, Hedf. reflexivity.
  - intros Hmode. rewrite get_vertex_radiance_eq, Hedf.
    destruct mode; [reflexivity | reflexivity | contradiction].
Qed.

Lemma emission_weighting_witness :
  get_edf (get_material Scene.emitter) = Some tt /\
  (get_vertex_radiance (C := Scene.lit) Scene.visitor tt Scene.emitter
     Scene.up tt tt Specular (Binary.of_Z 1) (spectrum_zero 3)).2 =
    [Binary.one32; Binary.one32; Binary.one32].
Proof.
  split; [reflexivity |].
  rewrite (proj1 (proj1 (emission_weighting Scene.lit Scene.visitor tt
                           Scene.emitter Scene.up tt tt Specular
                           (Binary.of_Z 1) (spectrum_zero 3) tt eq_refl)
                        eq_refl)).
  vm_compute. reflexivity.
Defined.

(** On binary64 and binary32 numbers: seen from two units away with density
    1 on both sides, the BSDF density becomes 1/4 in area measure, the weight
    (1/16) / (1/16 + 1) = 1/17, and a Diffuse vertex receives 1/17 of the
    emission where a Specular vertex receives all of it. *)
Example diffuse_emission_binary32 :
  (get_vertex_radiance (C := Scene.lit) Scene.visitor tt Scene.emitter
     Scene.up tt tt Diffuse (Binary.of_Z 1) (spectrum_zero 3)).2 =
    replicate 3
      (Binary.narrow
         (SFdiv Binary.prec64 Binary.emax64 (Binary.of_Z 1) (Binary.of_Z 17))).
Proof. vm_compute. reflexivity. Qed.

(** C3: at an emissive vertex reached by a mode other than Specular, the
    first argument of the MIS weight is the BSDF density [bsdf_prob]
    multiplied by [max(cosine of outgoing and shading normal, 0)] and divided
    by the squared distance to the vertex. *)
Theorem bsdf_density_area_measure {A : Arith} {O : Opaque} (C : Collaborators)
    (v : PathVertexVisitor) (sc : SamplingContext) (sp : ShadingPoint)
    (o : Vector3d) (bsdf : BSDF) (bd : Data) (mode : Mode) (prob : double)
    (r : Spectrum) (edf : EDF) :
  get_edf (get_material sp) = Some edf ->
  mode <> Specular ->
  px prob o (get_shading_normal sp) (get_distance sp) =
    area_measure prob (dot o (get_shading_normal sp)) (get_distance sp) /\
  (get_vertex_radiance v sc sp o bsdf bd mode prob r).2 =
    spectrum_add (lighting_before_emission v sc sp o bsdf bd r)
      (spectrum_scale (emitted_radiance_at v sp o edf)
         (to_float
            (mis_power2
               (area_measure prob (dot o (get_shading_normal sp))
                  (get_distance sp))
               (LightSampler_evaluate_pdf (v_light_sampler v) sp)))).
Proof.
  intros Hedf Hmode. split; [reflexivity |].
  rewrite get_vertex_radiance_eq, Hedf.
  destruct mode; [reflexivity | reflexivity | contradiction].
Qed.

Lemma bsdf_density_area_measure_witness :
  get_edf (get_material Scene.emitter) = Some tt /\
  Glossy <> Specular /\
  px (A := IEEE) (Binary.of_Z 1) Scene.up (get_shading_normal Scene.emitter)
     (get_distance Scene.emitter) =
    SFdiv Binary.prec64 Binary.emax64 (Binary.of_Z 1) (Binary.of_Z 4).
Proof.
  split; [reflexivity |]. split; [discriminate |].
  rewrite (proj1 (bsdf_density_area_measure Scene.lit Scene.visitor tt
                    Scene.emitter Scene.up tt tt Glossy (Binary.of_Z 1)
                    (spectrum_zero 3) tt eq_refl ltac:(discriminate))).
  vm_compute. reflexivity.
Defined.

(** ** Rays that leave the scene *)

(** C7: [get_environment_radiance] returns [false] and leaves the output
    radiance as it was, for every shading point and direction; the tracer
    then adds nothing for a ray that left the scene. *)
Theorem environment_radiance_not_available {A : Arith} {O : Opaque}
    (C : Collaborators) (v : PathVertexVisitor) (sp : ShadingPoint)
    (o : Vector3d) (environment_radiance : Spectrum) :
  get_environment_radiance v sp o environment_radiance =
    (false, environment_radiance) /\
  forall path sc radiance,
    visit_path v (Miss sp o :: path) sc radiance = (sc, radiance).
Proof. split; [reflexivity | intros; reflexivity]. Qed.

(** ** Divisions in the weight of emitted radiance *)


(** The same happens at a positive distance when both densities are 0, and
    at distance 0 when the BSDF sample has a positive probability. *)
Example unguarded_weight_nan :
  mis_power2 (A := IEEE) Binary.zero Binary.zero = Binary.nan /\
  mis_power2 (A := IEEE)
    (px (A := IEEE) (Binary.of_Z 1) Scene.up Scene.up Binary.zero)
    (Binary.of_Z 1) = Binary.nan.
Proof. split; vm_compute; reflexivity. Qed.

Section NeverNaN.
Context {O : Opaque} {C : @Collaborators IEEE O}.










End NeverNaN.



(** Finiteness itself is not kept: estimators that both return the largest
    finite binary32 number make every component of the vertex radiance plus
    infinity. *)
Example radiance_overflow :
  finite_nonneg_estimates Scene.blinding /\
  (compute_lighting (C := Scene.blinding) Scene.engine tt tt Scene.dark_point
     (spectrum_zero 3)).2 =
    [S754_infinity false; S754_infinity false; S754_infinity false].
Proof.
  split; [repeat split; intros; reflexivity | vm_compute; reflexivity].
Qed.

(** ** Paths that meet no light *)

Section PathFacts.
Context {A : Arith} {O : Opaque} {C : Collaborators}.

Lemma spectrum_add_zero (n : nat) :
  spectrum_add (spectrum_zero n) (spectrum_zero n) = spectrum_zero n.
Proof.
  unfold spectrum_add, spectrum_zero.
  induction n as [| n IH]; cbn; [reflexivity |].
  rewrite fadd_f0_f0. f_equal. exact IH.
Qed.

Lemma lighting_before_emission_dark (v : PathVertexVisitor)
    (sc : SamplingContext) (sp : ShadingPoint) (o : Vector3d) (bsdf : BSDF)
    (bd : Data) :
  no_light_sample -> no_direct_lighting -> no_environment_lighting ->
  lighting_before_emission v sc sp o bsdf bd (spectrum_zero Samples) =
    spectrum_zero Samples.
Proof.
  intros Hls Hdl Hibl. unfold lighting_before_emission. cbn zeta.
  rewrite Hls, Hdl, Hibl. apply spectrum_add_zero.
Qed.

(** A vertex visit changes nothing of the visitor but its buffer of light
    samples. *)
Lemma get_vertex_radiance_visitor (v : PathVertexVisitor)
    (sc : SamplingContext) (sp : ShadingPoint) (o : Vector3d) (bsdf : BSDF)
    (bd : Data) (mode : Mode) (prob : double) (r : Spectrum) :
  exists l : LightSampleVector,
    (get_vertex_radiance v sc sp o bsdf bd mode prob r).1.1 =
      set_light_samples v l.
Proof.
  unfold get_vertex_radiance.
  destruct (LightSampler_sample _ _ _ _ _ _) as [sc1 samples].
  destruct (compute_direct_lighting _ _ _ _ _ _ _ _ _ _ _) as [sc2 direct].
  destruct (compute_image_based_lighting _ _ _ _ _ _ _ _ _ _ _ _) as [sc3 ibl].
  exists samples. destruct (get_edf (get_material sp)); reflexivity.
Qed.

Lemma visit_path_unlit (v : PathVertexVisitor) (path : list PathEvent) :
  Forall (unlit_vertex v) (visited path) ->
  forall (l : LightSampleVector) (sc : SamplingContext),
    (visit_path (set_light_samples v l) path sc (spectrum_zero Samples)).2 =
      spectrum_zero Samples.
Proof.
  induction path as [| [sp o bsdf bd mode prob | sp o] path IH];
    intros Hpath l sc; cbn [visit_path visited] in *.
  - reflexivity.
  - apply Forall_cons in Hpath as [[Hedf Hlit] Hpath].
    pose proof (get_vertex_radiance_eq (set_light_samples v l) sc sp o bsdf bd
                  mode prob (spectrum_zero Samples)) as Heq.
    rewrite Hedf in Heq.
    change (lighting_before_emission (set_light_samples v l) sc sp o bsdf bd
              (spectrum_zero Samples))
      with (lighting_before_emission v sc sp o bsdf bd (spectrum_zero Samples))
      in Heq.
    rewrite Hlit in Heq.
    destruct (get_vertex_radiance_visitor (set_light_samples v l) sc sp o bsdf
                bd mode prob (spectrum_zero Samples)) as [l' Hv].
    destruct (get_vertex_radiance _ _ _ _ _ _ _ _ _) as [[v' sc'] vr].
    cbn in Heq, Hv. subst vr v'. rewrite spectrum_add_zero.
    apply (IH Hpath l' sc').
  - reflexivity.
Qed.

End PathFacts.

(** C5, as stated, fails: in a scene whose light sampler yields no sample
    and whose estimators find neither direct nor environment lighting, from
    a point whose material has no EDF, a specular bounce that meets an
    emitter brings back its emission: [compute_lighting] returns 1 in every
    band, not zero. *)
Lemma bounce_onto_emitter :
  get_edf (get_material (Scene.dark_point (A := IEEE))) = None /\
  no_light_sample (C := Scene.bounce) /\
  no_direct_lighting (C := Scene.bounce) /\
  no_environment_lighting (C := Scene.bounce) /\
  (compute_lighting (C := Scene.bounce) Scene.engine tt tt Scene.dark_point
     (spectrum_zero 3)).2 = [Binary.one32; Binary.one32; Binary.one32].
Proof.
  split; [reflexivity |].
  split; [intros sampler sc point normal count; reflexivity |].
  split; [intros sc shc point normal basis outgoing bsdf bsdf_data sp;
          reflexivity |].
  split; [intros sc shc scene point normal basis outgoing bsdf bsdf_data n1 n2
            sp; reflexivity |].
  vm_compute. reflexivity.
Qed.

(** C5, amended: when every vertex the tracer visits from the shading
    point, and not only the shading point itself, lies on a material without
    EDF and gets a zero radiance from the direct lighting and image-based
    lighting estimators of the engine's visitor, [compute_lighting] returns
    the zero spectrum, whatever the output radiance held before the call. *)
Theorem compute_lighting_unlit {A : Arith} {O : Opaque} (C : Collaborators)
    (e : DRTLightingEngine) (sc : SamplingContext) (shc : ShadingContext)
    (sp : ShadingPoint) (radiance : Spectrum) :
  Forall
    (unlit_vertex (PathVertexVisitor_new (m_light_sampler e) (m_params e) shc))
    (visited (traced_path (m_minimum_path_length (m_params e)) sc shc sp)) ->
  (compute_lighting e sc shc sp radiance).2 = spectrum_zero Samples.
Proof.
  intros Hpath. unfold compute_lighting, PathTracer_trace.
  pose proof (visit_path_unlit _ _ Hpath [] sc) as Hzero.
  change (set_light_samples
            (PathVertexVisitor_new (m_light_sampler e) (m_params e) shc) [])
    with (PathVertexVisitor_new (m_light_sampler e) (m_params e) shc)
    in Hzero.
  destruct (visit_path _ _ _ _) as [sc' r]. cbn in *. exact Hzero.
Qed.

Lemma compute_lighting_unlit_witness :
  Forall
    (unlit_vertex (C := Scene.dark)
       (PathVertexVisitor_new (C := Scene.dark)
          (m_light_sampler Scene.engine) (m_params Scene.engine) tt))
    Scene.dark_path /\
  (compute_lighting (C := Scene.dark) Scene.engine tt tt Scene.dark_point
     [Binary.one32; Binary.one32; Binary.one32]).2 =
    [Binary.zero; Binary.zero; Binary.zero].
Proof.
  assert (Hpath :
    Forall
      (unlit_vertex (C := Scene.dark)
         (PathVertexVisitor_new (C := Scene.dark)
            (m_light_sampler Scene.engine) (m_params Scene.engine) tt))
      Scene.dark_path).
  { apply Forall_cons. split; [split; [reflexivity | intros sc; reflexivity] |].
    apply Forall_cons. split; [split; [reflexivity | intros sc; reflexivity] |].
    constructor. }
  split; [exact Hpath |].
  apply (compute_lighting_unlit Scene.dark Scene.engine tt tt
           Scene.dark_point). exact Hpath.
Defined.

(** ** The ambient occlusion surface shader *)

Section ShaderFacts.
Context {A : Arith} {O : Opaque} {C : Collaborators} {ColorSpace : Type}.
Variable ColorSpaceLinearRGB : ColorSpace.

Lemma evaluate_eq (shader : AOSurfaceShader) (sc : SamplingContext)
    (shc : ShadingContext) (sp : ShadingPoint) (r : ShadingResult) :
  (evaluate ColorSpaceLinearRGB shader sc shc sp r).2 =
    let accessibility := to_float (dsub d1 (occlusion_at shader sc shc sp)) in
    {| m_color_space := ColorSpaceLinearRGB;
       m_color :=
         <[2%nat := accessibility]>
           (<[1%nat := accessibility]>
              (<[0%nat := accessibility]> (m_color r)));
       m_alpha := to_float d1 |}.
Proof.
  unfold evaluate, occlusion_at.
  destruct (compute_ambient_occlusion _ _ _ _ _ _ _ _) as [sc' occlusion].
  reflexivity.
Qed.

(** C10: [evaluate] sets the color space of the shading result to linear
    RGB and its alpha to 1, and writes [1 - occlusion], for the occlusion the
    ambient occlusion primitive returns, to the first three components of the
    color, leaving the others; the result depends on the shading point, and
    so on its material, through that occlusion only. *)
Theorem evaluate_gray (shader : AOSurfaceShader) (sc : SamplingContext)
    (shc : ShadingContext) (sp : ShadingPoint) (r : ShadingResult) :
  3 <= length (m_color r) ->
  let result := (evaluate ColorSpaceLinearRGB shader sc shc sp r).2 in
  let accessibility := to_float (dsub d1 (occlusion_at shader sc shc sp)) in
  m_color_space result = ColorSpaceLinearRGB /\
  m_alpha result = f1 /\
  m_color result !! 0%nat = Some accessibility /\
  m_color result !! 1%nat = Some accessibility /\
  m_color result !! 2%nat = Some accessibility /\
  (forall i, 3 <= i -> m_color result !! i = m_color r !! i) /\
  (forall sp',
     occlusion_at shader sc shc sp' = occlusion_at shader sc shc sp ->
     (evaluate ColorSpaceLinearRGB shader sc shc sp' r).2 = result).
Proof.
  intros Hlen. cbn zeta. rewrite evaluate_eq. cbn zeta. cbn [m_color_space m_alpha m_color].
  split; [reflexivity |]. split; [apply to_float_d1 |].
  split.
  { rewrite !list_lookup_insert_ne by lia.
    apply list_lookup_insert_eq. lia. }
  split.
  { rewrite list_lookup_insert_ne by lia.
    apply list_lookup_insert_eq. rewrite length_insert. lia. }
  split.
  { apply list_lookup_insert_eq. rewrite !length_insert. lia. }
  split.
  { intros i Hi. rewrite !list_lookup_insert_ne by lia. reflexivity. }
  intros sp' Hocc. rewrite evaluate_eq. cbn zeta. rewrite Hocc. reflexivity.
Qed.

End ShaderFacts.

Lemma evaluate_gray_witness :
  3 <= length (m_color Scene.stale_result) /\
  (evaluate (C := Scene.occluded) Scene.LinearRGB Scene.shader tt tt
     Scene.emitter Scene.stale_result).2 =
    @Build_ShadingResult IEEE Scene.ColorSpace Scene.LinearRGB
      [Scene.three_quarters; Scene.three_quarters; Scene.three_quarters;
       Binary.one32]
      Binary.one32 /\
  m_color
    (evaluate (C := Scene.occluded) Scene.LinearRGB Scene.shader tt tt
       Scene.emitter Scene.stale_result).2 !! 0%nat =
    Some Scene.three_quarters.
Proof.
  assert (Hlen : 3 <= length (m_color Scene.stale_result)) by (cbn; lia).
  split; [exact Hlen |]. split; [reflexivity |].
  destruct (evaluate_gray (C := Scene.occluded) Scene.LinearRGB Scene.shader
              tt tt Scene.emitter Scene.stale_result Hlen)
    as (_ & _ & H0 & _).
  exact (eq_trans H0 eq_refl).
Defined.

(** ** Statistics of the engine *)

(** On binary64 numbers: two calls that trace paths of one vertex give the
    path count 2 and the average depth 1. *)
Example statistics_binary64 :
  m_path_count
    (m_stats
       (compute_lighting_calls (C := Scene.lit_degenerate) Scene.engine
          [(tt, tt, Scene.degenerate); (tt, tt, Scene.degenerate)])) = 2%Z /\
  Population.get_avg
    (m_ray_tree_depth
       (m_stats
          (compute_lighting_calls (C := Scene.lit_degenerate) Scene.engine
             [(tt, tt, Scene.degenerate); (tt, tt, Scene.degenerate)]))) =
    Binary.one64.
Proof. split; vm_compute; reflexivity. Qed.

(** On binary64 numbers the running mean of the depths 1, 1 and 3 is one
    unit in the last place below the quotient 5/3. *)
Example running_mean_rounding :
  Population.get_avg
    (Population.insert (A := IEEE) 3
       (Population.insert 1 (Population.insert 1 Population.empty))) =
    S754_finite false 7505999378950826 (-52) /\
  SFdiv Binary.prec64 Binary.emax64 (Binary.of_Z 5) (Binary.of_Z 3) =
    S754_finite false 7505999378950827 (-52).
Proof. split; vm_compute; reflexivity. Qed.

(** * Further properties of the code *)

(** ** What a vertex visit reads *)

(** X1: [get_vertex_radiance] clears the light sample buffer before it asks
    for samples: whatever the buffer held before the call, the visitor, the
    sampling context and the radiance returned are the same, and the buffer
    then holds what the light sampler added to an empty vector. *)
Theorem light_samples_cleared {A : Arith} {O : Opaque} (C : Collaborators)
    (v : PathVertexVisitor) (stale : LightSampleVector)
    (sc : SamplingContext) (sp : ShadingPoint) (o : Vector3d) (bsdf : BSDF)
    (bd : Data) (mode : Mode) (prob : double) (r : Spectrum) :
  get_vertex_radiance (set_light_samples v stale) sc sp o bsdf bd mode prob r =
    get_vertex_radiance v sc sp o bsdf bd mode prob r /\
  v_light_samples (get_vertex_radiance v sc sp o bsdf bd mode prob r).1.1 =
    (LightSampler_sample (v_light_sampler v) sc (get_point sp)
       (get_shading_normal sp) (m_dl_sample_count (v_params v)) []).2.
Proof.
  split; [reflexivity |].
  unfold get_vertex_radiance, clear_keep_memory.
  destruct (LightSampler_sample _ _ _ _ _ _) as [sc1 samples].
  destruct (compute_direct_lighting _ _ _ _ _ _ _ _ _ _ _) as [sc2 direct].
  destruct (compute_image_based_lighting _ _ _ _ _ _ _ _ _ _ _ _) as [sc3 ibl].
  destruct (get_edf (get_material sp)); reflexivity.
Qed.

Section VisitFacts.
Context {A : Arith} {O : Opaque} {C : Collaborators}.

Lemma get_vertex_radiance_state (v : PathVertexVisitor) (sc : SamplingContext)
    (sp : ShadingPoint) (o : Vector3d) (bsdf : BSDF) (bd : Data)
    (mode mode' : Mode) (prob prob' : double) (r : Spectrum) :
  (get_vertex_radiance v sc sp o bsdf bd mode prob r).1 =
  (get_vertex_radiance v sc sp o bsdf bd mode' prob' r).1.
Proof.
  unfold get_vertex_radiance.
  destruct (LightSampler_sample _ _ _ _ _ _) as [sc1 samples].
  destruct (compute_direct_lighting _ _ _ _ _ _ _ _ _ _ _) as [sc2 direct].
  destruct (compute_image_based_lighting _ _ _ _ _ _ _ _ _ _ _ _) as [sc3 ibl].
  destruct (get_edf (get_material sp)); reflexivity.
Qed.

End VisitFacts.

(** X2: the scattering mode and the BSDF probability of a vertex are read
    only to weight emission.  They never change the sampling context or the
    light sample buffer a visit leaves; on a material without EDF they, and
    the density of the light sampler, never change the radiance; and at a
    Specular vertex the BSDF probability never changes the radiance. *)
Theorem mode_and_probability_scope {A : Arith} {O : Opaque} (C : Collaborators)
    (v : PathVertexVisitor) (sc : SamplingContext) (sp : ShadingPoint)
    (o : Vector3d) (bsdf : BSDF) (bd : Data) (mode mode' : Mode)
    (prob prob' : double) (r : Spectrum) :
  (get_vertex_radiance v sc sp o bsdf bd mode prob r).1 =
    (get_vertex_radiance v sc sp o bsdf bd mode' prob' r).1 /\
  (get_edf (get_material sp) = None ->
   forall pdf,
     get_vertex_radiance (C := with_evaluate_pdf C pdf)
       v sc sp o bsdf bd mode prob r =
     get_vertex_radiance v sc sp o bsdf bd mode' prob' r) /\
  get_vertex_radiance v sc sp o bsdf bd Specular prob r =
    get_vertex_radiance v sc sp o bsdf bd Specular prob' r.
Proof.
  split; [apply get_vertex_radiance_state |]. split.
  - intros Hedf pdf. unfold get_vertex_radiance. cbn.
    destruct (LightSampler_sample _ _ _ _ _ _) as [sc1 samples].
    destruct (compute_direct_lighting _ _ _ _ _ _ _ _ _ _ _) as [sc2 direct].
    destruct (compute_image_based_lighting _ _ _ _ _ _ _ _ _ _ _ _) as [sc3 ibl].
    rewrite Hedf. reflexivity.
  - reflexivity.
Qed.

(** ** What a call of the engine changes *)

Section EngineFacts.
Context {A : Arith} {O : Opaque} {C : Collaborators}.

Lemma compute_lighting_engine (e : DRTLightingEngine) (sc : SamplingContext)
    (shc : ShadingContext) (sp : ShadingPoint) (r : Spectrum) :
  m_light_sampler (compute_lighting e sc shc sp r).1.1 = m_light_sampler e /\
  m_params (compute_lighting e sc shc sp r).1.1 = m_params e /\
  m_path_count (m_stats (compute_lighting e sc shc sp r).1.1) =
    size_t_wrap (m_path_count (m_stats e) + 1).
Proof.
  unfold compute_lighting, PathTracer_trace.
  destruct (visit_path _ _ _ _) as [sc' r']. cbn. auto.
Qed.

Lemma size_t_wrap_succ (c n : Z) :
  size_t_wrap (size_t_wrap (c + 1) + n) = size_t_wrap (c + (1 + n)).
Proof.
  unfold size_t_wrap. rewrite Zplus_mod_idemp_l. f_equal. lia.
Qed.

Lemma compute_lighting_calls_engine
    (calls : list (SamplingContext * ShadingContext * ShadingPoint)) :
  forall e : DRTLightingEngine,
    m_light_sampler (compute_lighting_calls e calls) = m_light_sampler e /\
    m_params (compute_lighting_calls e calls) = m_params e /\
    size_t_wrap (m_path_count (m_stats (compute_lighting_calls e calls))) =
      size_t_wrap (m_path_count (m_stats e) + Z.of_nat (length calls)).
Proof.
  induction calls as [| [[sc shc] sp] calls IH]; intros e.
  - cbn. rewrite Z.add_0_r. auto.
  - cbn [compute_lighting_calls fold_left length].
    destruct (compute_lighting_engine e sc shc sp (spectrum_zero Samples))
      as (Hls & Hpar & Hcount).
    destruct (IH (compute_lighting e sc shc sp (spectrum_zero Samples)).1.1)
      as (Hls' & Hpar' & Hcount').
    unfold compute_lighting_calls in *.
    rewrite Hls', Hpar', Hcount', Hls, Hpar, Hcount.
    rewrite size_t_wrap_succ. repeat split. f_equal. lia.
Qed.

Lemma path_count_in_range
    (calls : list (SamplingContext * ShadingContext * ShadingPoint)) :
  forall e : DRTLightingEngine,
    size_t_wrap (m_path_count (m_stats e)) = m_path_count (m_stats e) ->
    size_t_wrap (m_path_count (m_stats (compute_lighting_calls e calls))) =
      m_path_count (m_stats (compute_lighting_calls e calls)).
Proof.
  induction calls as [| [[sc shc] sp] calls IH]; intros e Hrange.
  - exact Hrange.
  - cbn [compute_lighting_calls fold_left]. apply IH.
    destruct (compute_lighting_engine e sc shc sp (spectrum_zero Samples))
      as (_ & _ & ->).
    unfold size_t_wrap. apply Z.mod_mod. lia.
Qed.

End EngineFacts.

(** X3: an engine made by the factory keeps the light sampler of the factory
    and the parameters read from its parameter array through any number of
    calls of [compute_lighting]; only its statistics change, and its path
    count is the number of calls modulo 2^64. *)
Theorem engine_configuration_kept {A : Arith} {O : Opaque} (C : Collaborators)
    (f : DRTLightingEngineFactory)
    (calls : list (SamplingContext * ShadingContext * ShadingPoint)) :
  m_light_sampler (compute_lighting_calls (create f) calls) =
    f_light_sampler f /\
  m_params (compute_lighting_calls (create f) calls) =
    Parameters_new (f_params f) /\
  m_path_count (m_stats (compute_lighting_calls (create f) calls)) =
    (Z.of_nat (length calls) mod 2 ^ 64)%Z /\
  create f = create_with f (f_light_sampler f) (f_params f).
Proof.
  destruct (compute_lighting_calls_engine calls (create f))
    as (Hls & Hpar & Hcount).
  rewrite (path_count_in_range calls (create f) eq_refl) in Hcount.
  repeat split; assumption.
Qed.

(** X4: the statistics of an engine never reach what [compute_lighting]
    computes: two engines with the same light sampler and the same parameters
    return the same sampling context and the same radiance. *)
Theorem radiance_ignores_statistics {A : Arith} {O : Opaque} (C : Collaborators)
    (e e' : DRTLightingEngine) (sc : SamplingContext) (shc : ShadingContext)
    (sp : ShadingPoint) (r : Spectrum) :
  m_light_sampler e = m_light_sampler e' ->
  m_params e = m_params e' ->
  (compute_lighting e sc shc sp r).1.2 = (compute_lighting e' sc shc sp r).1.2 /\
  (compute_lighting e sc shc sp r).2 = (compute_lighting e' sc shc sp r).2.
Proof.
  intros Hls Hpar. unfold compute_lighting. rewrite Hls, Hpar.
  destruct (PathTracer_trace _ _ _ _ _ _) as [[sc' r'] n]. cbn. auto.
Qed.

Lemma radiance_ignores_statistics_witness :
  m_stats
    (compute_lighting (C := Scene.lit_degenerate) Scene.engine tt tt
       Scene.degenerate (spectrum_zero 3)).1.1 <> m_stats Scene.engine /\
  (compute_lighting (C := Scene.lit_degenerate)
     (compute_lighting (C := Scene.lit_degenerate) Scene.engine tt tt
        Scene.degenerate (spectrum_zero 3)).1.1
     tt tt Scene.dark_point (spectrum_zero 3)).2 =
  (compute_lighting (C := Scene.lit_degenerate) Scene.engine tt tt
     Scene.dark_point (spectrum_zero 3)).2.
Proof.
  split; [discriminate |].
  apply (radiance_ignores_statistics Scene.lit_degenerate); reflexivity.
Defined.

(** ** Emission on binary64 and binary32 numbers *)

Section BinaryFacts.
Context {O : Opaque} {C : @Collaborators IEEE O}.

Lemma spectrum_scale_nan (e : list spec_float) :
  spectrum_scale (A := IEEE) e S754_nan = replicate (length e) S754_nan.
Proof.
  unfold spectrum_scale. induction e as [| x e IH]; [reflexivity |].
  cbn [fmap list_fmap length replicate]. f_equal; [| exact IH].
  destruct x; reflexivity.
Qed.

Lemma spectrum_add_nan (l : list spec_float) : forall n,
  all_nan (spectrum_add (A := IEEE) l (replicate n S754_nan)).
Proof.
  unfold all_nan, spectrum_add.
  induction l as [| x l IH]; intros [| n]; cbn [replicate zip_with];
    try constructor.
  - destruct x; reflexivity.
  - apply IH.
Qed.

Lemma nan_weight_poisons (v : PathVertexVisitor) (sc : SamplingContext)
    (sp : @ShadingPoint IEEE O) (o : @Vector3d IEEE) (bsdf : BSDF) (bd : Data) (mode : Mode)
    (prob : spec_float) (r : list spec_float) (edf : EDF) :
  get_edf (get_material sp) = Some edf ->
  mode <> Specular ->
  mis_power2 (A := IEEE)
    (px (A := IEEE) prob o (get_shading_normal sp) (get_distance sp))
    (LightSampler_evaluate_pdf (v_light_sampler v) sp) = S754_nan ->
  all_nan (get_vertex_radiance v sc sp o bsdf bd mode prob r).2.
Proof.
  intros Hedf Hmode Hw. rewrite get_vertex_radiance_eq, Hedf.
  destruct mode; try contradiction; rewrite Hw;
    change (to_float (Arith := IEEE) S754_nan) with S754_nan;
    rewrite spectrum_scale_nan; apply spectrum_add_nan.
Qed.

Lemma weight_zero_distance (x pdf : spec_float) (s : bool) :
  mis_power2 (A := IEEE)
    (ddiv (Arith := IEEE) x (square (A := IEEE) (S754_zero s))) pdf =
    S754_nan.
Proof.
  unfold mis_power2, square. cbn [dmul ddiv dadd IEEE].
  generalize (SFmul Binary.prec64 Binary.emax64 pdf pdf). intros y.
  destruct s, x as [[] | [] | | [] m e], y as [[] | [] | | [] my ey];
    reflexivity.
Qed.

Lemma weight_zero_densities (s1 s2 : bool) :
  mis_power2 (A := IEEE) (S754_zero s1) (S754_zero s2) = S754_nan.
Proof. destruct s1, s2; reflexivity. Qed.

Lemma weight_nan_density (q : spec_float) :
  mis_power2 (A := IEEE) S754_nan q = S754_nan /\
  mis_power2 (A := IEEE) q S754_nan = S754_nan.
Proof.
  unfold mis_power2. cbn [dmul ddiv dadd IEEE]. split; [reflexivity |].
  generalize (SFmul Binary.prec64 Binary.emax64 q q). intros y.
  destruct y as [[] | [] | | [] my ey]; reflexivity.
Qed.

Lemma px_nan (prob : spec_float) (o n : @Vector3d IEEE) (d : spec_float) :
  prob = S754_nan \/ dot (A := IEEE) o n = S754_nan \/ d = S754_nan ->
  px (A := IEEE) prob o n d = S754_nan.
Proof.
  unfold px, square, std.max. cbn [dmul ddiv dltb d0 IEEE].
  intros [-> | [-> | ->]].
  - reflexivity.
  - cbn. destruct prob as [[] | [] | | [] m e]; reflexivity.
  - change (SFmul Binary.prec64 Binary.emax64 S754_nan S754_nan)
      with S754_nan.
    match goal with
    | |- SFdiv _ _ ?x _ = _ => generalize x
    end.
    intros x. destruct x as [[] | [] | | [] m e]; reflexivity.
Qed.

End BinaryFacts.

(** X5: on binary64 and binary32 numbers, at a vertex on an emitter that is
    reached by a mode other than Specular at travel distance 0 (of either
    sign), every component of the vertex radiance is NaN, whatever the BSDF
    probability, the directions, the density of the light sampler and the
    radiances of the estimators and of the EDF. *)
Theorem zero_distance_poisons {O : Opaque} (C : @Collaborators IEEE O)
    (v : PathVertexVisitor) (sc : SamplingContext) (sp : @ShadingPoint IEEE O)
    (o : @Vector3d IEEE) (bsdf : BSDF) (bd : Data) (mode : Mode) (prob : spec_float)
    (r : list spec_float) (edf : EDF) (s : bool) :
  get_edf (get_material sp) = Some edf ->
  mode <> Specular ->
  get_distance (A := IEEE) sp = S754_zero s ->
  all_nan (get_vertex_radiance v sc sp o bsdf bd mode prob r).2.
Proof.
  intros Hedf Hmode Hd. apply (nan_weight_poisons _ _ _ _ _ _ _ _ _ edf);
    try assumption.
  rewrite Hd. unfold px. cbn zeta. apply weight_zero_distance.
Qed.

Lemma zero_distance_poisons_witness :
  get_distance Scene.degenerate = S754_zero false /\
  all_nan
    (get_vertex_radiance (C := Scene.lit) Scene.visitor tt Scene.degenerate
       Scene.up tt tt Glossy (Binary.of_Z 3)
       [Binary.one32; Binary.one32; Binary.one32]).2.
Proof.
  split; [reflexivity |].
  apply (zero_distance_poisons Scene.lit Scene.visitor tt Scene.degenerate
           Scene.up tt tt Glossy (Binary.of_Z 3) _ tt false);
    [reflexivity | discriminate | reflexivity].
Defined.

(** X6: on binary64 and binary32 numbers, at a vertex on an emitter that is
    reached by a mode other than Specular, when the area density of the BSDF
    sample and the density of the light sampler are both 0 (of either sign),
    every component of the vertex radiance is NaN. *)
Theorem zero_densities_poison {O : Opaque} (C : @Collaborators IEEE O)
    (v : PathVertexVisitor) (sc : SamplingContext) (sp : @ShadingPoint IEEE O)
    (o : @Vector3d IEEE) (bsdf : BSDF) (bd : Data) (mode : Mode) (prob : spec_float)
    (r : list spec_float) (edf : EDF) (s1 s2 : bool) :
  get_edf (get_material sp) = Some edf ->
  mode <> Specular ->
  px (A := IEEE) prob o (get_shading_normal sp) (get_distance sp) =
    S754_zero s1 ->
  LightSampler_evaluate_pdf (A := IEEE) (v_light_sampler v) sp =
    S754_zero s2 ->
  all_nan (get_vertex_radiance v sc sp o bsdf bd mode prob r).2.
Proof.
  intros Hedf Hmode Hpx Hpdf.
  apply (nan_weight_poisons _ _ _ _ _ _ _ _ _ edf); try assumption.
  rewrite Hpx, Hpdf. apply weight_zero_densities.
Qed.

Lemma zero_densities_poison_witness :
  px (A := IEEE) Binary.zero Scene.up (get_shading_normal Scene.emitter)
     (get_distance Scene.emitter) = S754_zero false /\
  all_nan
    (get_vertex_radiance (C := Scene.unsampled) Scene.visitor tt Scene.emitter
       Scene.up tt tt Diffuse Binary.zero
       [Binary.one32; Binary.one32; Binary.one32]).2.
Proof.
  assert (Hpx : px (A := IEEE) Binary.zero Scene.up
                  (get_shading_normal Scene.emitter)
                  (get_distance Scene.emitter) = S754_zero false)
    by (vm_compute; reflexivity).
  split; [exact Hpx |].
  apply (zero_densities_poison Scene.unsampled Scene.visitor tt Scene.emitter
           Scene.up tt tt Diffuse Binary.zero _ tt false false);
    [reflexivity | discriminate | exact Hpx | reflexivity].
Defined.

(** X7: on binary64 and binary32 numbers, at a vertex on an emitter that is
    reached by a mode other than Specular, a NaN in the BSDF probability, in
    the cosine of the outgoing direction and the shading normal, in the
    travel distance or in the density of the light sampler makes every
    component of the vertex radiance NaN: [max(cosine, 0)] does not replace a
    NaN cosine. *)
Theorem nan_input_poisons {O : Opaque} (C : @Collaborators IEEE O)
    (v : PathVertexVisitor) (sc : SamplingContext) (sp : @ShadingPoint IEEE O)
    (o : @Vector3d IEEE) (bsdf : BSDF) (bd : Data) (mode : Mode) (prob : spec_float)
    (r : list spec_float) (edf : EDF) :
  get_edf (get_material sp) = Some edf ->
  mode <> Specular ->
  prob = S754_nan \/
  dot (A := IEEE) o (get_shading_normal sp) = S754_nan \/
  get_distance (A := IEEE) sp = S754_nan \/
  LightSampler_evaluate_pdf (A := IEEE) (v_light_sampler v) sp = S754_nan ->
  all_nan (get_vertex_radiance v sc sp o bsdf bd mode prob r).2.
Proof.
  intros Hedf Hmode Hnan.
  apply (nan_weight_poisons _ _ _ _ _ _ _ _ _ edf); try assumption.
  destruct Hnan as [H | [H | [H | H]]].
  - rewrite px_nan by auto. apply weight_nan_density.
  - rewrite px_nan by auto. apply weight_nan_density.
  - rewrite px_nan by auto. apply weight_nan_density.
  - rewrite H. apply weight_nan_density.
Qed.

Lemma nan_input_poisons_witness :
  get_distance Scene.nowhere = S754_nan /\
  all_nan
    (get_vertex_radiance (C := Scene.lit) Scene.visitor tt Scene.nowhere
       Scene.up tt tt Diffuse (Binary.of_Z 1)
       [Binary.one32; Binary.one32; Binary.one32]).2.
Proof.
  split; [reflexivity |].
  apply (nan_input_poisons Scene.lit Scene.visitor tt Scene.nowhere Scene.up
           tt tt Diffuse (Binary.of_Z 1) _ tt);
    [reflexivity | discriminate | right; right; left; reflexivity].
Defined.

(** X8: on binary64 and binary32 numbers, when the outgoing direction is on
    or below the horizon of the shading normal (cosine at most 0), the BSDF
    probability is finite, and neither the squared travel distance nor the
    squared density of the light sampler is zero or NaN, the MIS weight of an
    emitter reached by a mode other than Specular is exactly +0: its emission
    is multiplied by 0 before it is added. *)
Theorem back_facing_weight_zero {O : Opaque} (C : @Collaborators IEEE O)
    (v : PathVertexVisitor) (sc : SamplingContext) (sp : @ShadingPoint IEEE O)
    (o : @Vector3d IEEE) (bsdf : BSDF) (bd : Data) (mode : Mode)
    (prob : spec_float) (r : list spec_float) (edf : EDF) :
  get_edf (get_material sp) = Some edf ->
  mode <> Specular ->
  finite_value prob = true ->
  SFleb (dot (A := IEEE) o (get_shading_normal sp)) Binary.zero = true ->
  positive_value (square (A := IEEE) (get_distance sp)) = true ->
  positive_value
    (dmul (Arith := IEEE) (LightSampler_evaluate_pdf (v_light_sampler v) sp)
       (LightSampler_evaluate_pdf (v_light_sampler v) sp)) = true ->
  mis_power2 (A := IEEE)
    (px (A := IEEE) prob o (get_shading_normal sp) (get_distance sp))
    (LightSampler_evaluate_pdf (v_light_sampler v) sp) = Binary.zero /\
  (get_vertex_radiance v sc sp o bsdf bd mode prob r).2 =
    spectrum_add (lighting_before_emission v sc sp o bsdf bd r)
      (spectrum_scale (emitted_radiance_at v sp o edf) Binary.zero).
Proof.
  intros Hedf Hmode Hprob Hcos Hdist Hpdf.
  assert (Hw : mis_power2 (A := IEEE)
                 (px (A := IEEE) prob o (get_shading_normal sp)
                    (get_distance sp))
                 (LightSampler_evaluate_pdf (v_light_sampler v) sp) =
               Binary.zero).
  { unfold mis_power2, px, std.max, square in *.
    cbn [dmul ddiv dadd dltb d0 IEEE] in *.
    revert Hcos Hdist Hpdf.
    generalize (dot (A := IEEE) o (get_shading_normal sp)).
    generalize (SFmul Binary.prec64 Binary.emax64 (get_distance sp)
                  (get_distance sp)).
    generalize (SFmul Binary.prec64 Binary.emax64
                  (LightSampler_evaluate_pdf (v_light_sampler v) sp)
                  (LightSampler_evaluate_pdf (v_light_sampler v) sp)).
    intros y d c Hcos Hdist Hpdf.
    destruct prob as [[] | [] | | [] mp ep]; try discriminate;
      destruct c as [[] | [] | | [] mc ec]; try discriminate;
      destruct d as [[] | [] | | [] md ed]; try discriminate;
      destruct y as [[] | [] | | [] my ey]; try discriminate;
      reflexivity. }
  split; [exact Hw |].
  rewrite get_vertex_radiance_eq, Hedf.
  destruct mode; try contradiction; rewrite Hw; reflexivity.
Qed.

Lemma back_facing_weight_zero_witness :
  SFleb (dot (A := IEEE) Scene.down (get_shading_normal Scene.emitter))
    Binary.zero = true /\
  (get_vertex_radiance (C := Scene.lit) Scene.visitor tt Scene.emitter
     Scene.down tt tt Diffuse (Binary.of_Z 1) (spectrum_zero 3)).2 =
    [Binary.zero; Binary.zero; Binary.zero].
Proof.
  assert (Hcos : SFleb (dot (A := IEEE) Scene.down
                          (get_shading_normal Scene.emitter))
                   Binary.zero = true) by (vm_compute; reflexivity).
  split; [exact Hcos |].
  rewrite (proj2 (back_facing_weight_zero Scene.lit Scene.visitor tt
                    Scene.emitter Scene.down tt tt Diffuse (Binary.of_Z 1)
                    (spectrum_zero (A := IEEE) 3) tt eq_refl
                    ltac:(discriminate) eq_refl
                    Hcos eq_refl eq_refl)).
  vm_compute. reflexivity.
Defined.

(** Multiplying a binary32 number in canonical form by 1 returns it. *)
Lemma shr_fexp_canonical (m : positive) (e : Z) :
  canonical_mantissa Binary.prec32 Binary.emax32 m e = true ->
  shr_fexp Binary.prec32 Binary.emax32 (Z.pos m) e loc_Exact =
    ({| shr_m := Z.pos m; shr_r := false; shr_s := false |}, e).
Proof.
  unfold canonical_mantissa, shr_fexp. intros Hc. apply Z.eqb_eq in Hc.
  cbn [Zdigits2]. rewrite Hc, Z.sub_diag. reflexivity.
Qed.

Lemma shr_fexp_scaled (m : positive) (e : Z) :
  canonical_mantissa Binary.prec32 Binary.emax32 m e = true ->
  shr_fexp Binary.prec32 Binary.emax32 (Z.pos (m * 8388608)) (e + -23)
    loc_Exact =
    ({| shr_m := Z.pos m; shr_r := false; shr_s := false |}, e).
Proof.
  unfold canonical_mantissa, shr_fexp. intros Hc. apply Z.eqb_eq in Hc.
  rewrite Pos.mul_comm. cbv [Pos.mul Zdigits2 digits2_pos].
  fold (digits2_pos m). rewrite !Pos2Z.inj_succ.
  replace (Z.succ _ + (e + -23))%Z with (Z.pos (digits2_pos m) + e)%Z by lia.
  rewrite Hc. replace (e - (e + -23))%Z with 23%Z by lia.
  cbv [shr shr_record_of_loc SpecFloat.iter_pos shr_1 orb]. f_equal. lia.
Qed.

Lemma SFmul_one32 (x : spec_float) :
  valid_binary Binary.prec32 Binary.emax32 x = true ->
  SFmul Binary.prec32 Binary.emax32 x Binary.one32 = x.
Proof.
  destruct x as [[] | [] | | s m e]; try reflexivity.
  cbn [valid_binary]. unfold bounded. intros Hv.
  apply andb_prop in Hv as [Hc Hle].
  change Binary.one32 with (S754_finite false 8388608 (-23)).
  cbn [SFmul]. replace (xorb s false) with s by (destruct s; reflexivity).
  unfold binary_round_aux. rewrite (shr_fexp_scaled m e Hc).
  cbn [shr_m loc_of_shr_record round_nearest_even].
  rewrite (shr_fexp_canonical m e Hc). cbn [shr_m]. rewrite Hle. reflexivity.
Qed.

Lemma spectrum_scale_one32 (l : list spec_float) :
  Forall (fun x => valid_binary Binary.prec32 Binary.emax32 x = true) l ->
  spectrum_scale (A := IEEE) l Binary.one32 = l.
Proof.
  unfold spectrum_scale. induction 1 as [| x l Hx Hl IH]; [reflexivity |].
  cbn [fmap list_fmap]. f_equal; [apply SFmul_one32, Hx | exact IH].
Qed.

(** X9: on binary64 and binary32 numbers, an emitter that the light sampler
    never chooses (density 0, of either sign) and that BSDF sampling reaches
    with an area density whose square is a finite number other than 0 has
    MIS weight exactly 1; when the EDF returns binary32 numbers in canonical
    form, the vertex radiance is then, whatever the mode, the one of a
    Specular vertex, with the whole emission. *)
Theorem unsampled_emitter_unit_weight {O : Opaque} (C : @Collaborators IEEE O)
    (v : PathVertexVisitor) (sc : SamplingContext) (sp : @ShadingPoint IEEE O)
    (o : @Vector3d IEEE) (bsdf : BSDF) (bd : Data) (mode : Mode)
    (prob : spec_float) (r : list spec_float) (s s1 : bool) (m : positive)
    (e : Z) :
  LightSampler_evaluate_pdf (A := IEEE) (v_light_sampler v) sp = S754_zero s ->
  square (A := IEEE)
    (px (A := IEEE) prob o (get_shading_normal sp) (get_distance sp)) =
    S754_finite s1 m e ->
  (forall edf : EDF,
     get_edf (get_material sp) = Some edf ->
     Forall (fun x => valid_binary Binary.prec32 Binary.emax32 x = true)
       (emitted_radiance_at v sp o edf)) ->
  mis_power2 (A := IEEE)
    (px (A := IEEE) prob o (get_shading_normal sp) (get_distance sp))
    (LightSampler_evaluate_pdf (v_light_sampler v) sp) = Binary.one64 /\
  (get_vertex_radiance v sc sp o bsdf bd mode prob r).2 =
    (get_vertex_radiance v sc sp o bsdf bd Specular prob r).2.
Proof.
  intros Hpdf Hpx Hvalid.
  assert (Hw : mis_power2 (A := IEEE)
                 (px (A := IEEE) prob o (get_shading_normal sp)
                    (get_distance sp))
                 (LightSampler_evaluate_pdf (v_light_sampler v) sp) =
               Binary.one64).
  { rewrite Hpdf. exact (mis_power2_unit _ s s1 m e Hpx). }
  split; [exact Hw |].
  rewrite !get_vertex_radiance_eq.
  destruct (get_edf (get_material sp)) as [edf |]; [| reflexivity].
  specialize (Hvalid edf eq_refl).
  destruct mode; try reflexivity; rewrite Hw; f_equal;
    change (to_float (Arith := IEEE) Binary.one64) with Binary.one32;
    apply spectrum_scale_one32, Hvalid.
Qed.

Lemma unsampled_emitter_unit_weight_witness :
  square (A := IEEE)
    (px (A := IEEE) (Binary.of_Z 1) Scene.up
       (get_shading_normal Scene.emitter) (get_distance Scene.emitter)) =
    S754_finite false 4503599627370496 (-56) /\
  (get_vertex_radiance (C := Scene.unsampled) Scene.visitor tt Scene.emitter
     Scene.up tt tt Diffuse (Binary.of_Z 1) (spectrum_zero 3)).2 =
  (get_vertex_radiance (C := Scene.unsampled) Scene.visitor tt Scene.emitter
     Scene.up tt tt Specular (Binary.of_Z 1) (spectrum_zero 3)).2.
Proof.
  assert (Hpx : square (A := IEEE)
                  (px (A := IEEE) (Binary.of_Z 1) Scene.up
                     (get_shading_normal Scene.emitter)
                     (get_distance Scene.emitter)) =
                S754_finite false 4503599627370496 (-56))
    by (vm_compute; reflexivity).
  split; [exact Hpx |].
  refine (proj2 (unsampled_emitter_unit_weight Scene.unsampled Scene.visitor
                   tt Scene.emitter Scene.up tt tt Diffuse (Binary.of_Z 1)
                   (spectrum_zero (A := IEEE) 3) false false _ _
                   eq_refl Hpx _)).
  intros edf Hedf. repeat constructor.
Defined.

(** ** What the ambient occlusion shader reads and writes *)

Section ShaderReads.
Context {A : Arith} {O : Opaque} {C : Collaborators} {ColorSpace : Type}.
Variable ColorSpaceLinearRGB : ColorSpace.

(** X10: [evaluate] writes the color space, the alpha and the first three
    color components without reading them: two shading results whose colors
    have the same length and agree from the fourth component on give the
    same result, and evaluating again into the result of an evaluation
    changes nothing. *)
Theorem evaluate_overwrites (shader : AOSurfaceShader) (sc : SamplingContext)
    (shc : ShadingContext) (sp : ShadingPoint) (r r' : ShadingResult) :
  length (m_color r) = length (m_color r') ->
  drop 3 (m_color r) = drop 3 (m_color r') ->
  evaluate ColorSpaceLinearRGB shader sc shc sp r =
    evaluate ColorSpaceLinearRGB shader sc shc sp r' /\
  evaluate ColorSpaceLinearRGB shader sc shc sp
    (evaluate ColorSpaceLinearRGB shader sc shc sp r).2 =
    evaluate ColorSpaceLinearRGB shader sc shc sp r.
Proof.
  intros Hlen Hdrop. unfold evaluate.
  destruct (compute_ambient_occlusion _ _ _ _ _ _ _ _) as [sc' occlusion].
  cbn [snd m_color]. split.
  - f_equal. f_equal.
    destruct (m_color r) as [| x [| y [| z t]]],
             (m_color r') as [| x' [| y' [| z' t']]];
      try discriminate; cbn in Hdrop; rewrite ?drop_0 in Hdrop; subst;
      reflexivity.
  - f_equal. f_equal.
    destruct (m_color r) as [| x [| y [| z t]]]; reflexivity.
Qed.

End ShaderReads.

Lemma evaluate_overwrites_witness :
  drop 3 (m_color Scene.stale_result) = [Binary.one32] /\
  evaluate (C := Scene.occluded) Scene.LinearRGB Scene.shader tt tt
    Scene.emitter Scene.stale_result =
  evaluate (C := Scene.occluded) Scene.LinearRGB Scene.shader tt tt
    Scene.emitter
    (@Build_ShadingResult IEEE Scene.ColorSpace Scene.LinearRGB
       [Binary.zero; Binary.zero; Binary.zero; Binary.one32] Binary.one32).
Proof.
  split; [reflexivity |].
  exact (proj1 (evaluate_overwrites (C := Scene.occluded) Scene.LinearRGB
                  Scene.shader tt tt Scene.emitter Scene.stale_result
                  (@Build_ShadingResult IEEE Scene.ColorSpace Scene.LinearRGB
                     [Binary.zero; Binary.zero; Binary.zero; Binary.one32]
                     Binary.one32)
                  eq_refl eq_refl)).
Defined.

(** ** Options the engine never reads *)

Section DepthOptions.
Context {A : Arith} {O : Opaque} {C : Collaborators}.

Lemma get_vertex_radiance_agree (v v' : PathVertexVisitor)
    (sc : SamplingContext) (sp : ShadingPoint) (o : Vector3d) (bsdf : BSDF)
    (bd : Data) (mode : Mode) (prob : double) (r : Spectrum) :
  visitors_agree v v' ->
  visitors_agree (get_vertex_radiance v sc sp o bsdf bd mode prob r).1.1
    (get_vertex_radiance v' sc sp o bsdf bd mode prob r).1.1 /\
  (get_vertex_radiance v sc sp o bsdf bd mode prob r).1.2 =
    (get_vertex_radiance v' sc sp o bsdf bd mode prob r).1.2 /\
  (get_vertex_radiance v sc sp o bsdf bd mode prob r).2 =
    (get_vertex_radiance v' sc sp o bsdf bd mode prob r).2.
Proof.
  intros (Hls & (Hmin & Hdl & Hb & He) & Hshc & Htc).
  unfold get_vertex_radiance, clear_keep_memory. cbn.
  rewrite Hls, Hdl, Hb, He, Hshc, Htc.
  destruct (LightSampler_sample _ _ _ _ _ _) as [sc1 samples].
  destruct (compute_direct_lighting _ _ _ _ _ _ _ _ _ _ _) as [sc2 direct].
  destruct (compute_image_based_lighting _ _ _ _ _ _ _ _ _ _ _ _) as [sc3 ibl].
  destruct (get_edf (get_material sp)); cbn;
    (split; [| split; reflexivity]);
    repeat split; assumption.
Qed.

Lemma visit_path_agree (path : list PathEvent) :
  forall (v v' : PathVertexVisitor) (sc : SamplingContext) (r : Spectrum),
    visitors_agree v v' ->
    visit_path v path sc r = visit_path v' path sc r.
Proof.
  induction path as [| [sp o bsdf bd mode prob | sp o] path IH];
    intros v v' sc r Hagree; cbn [visit_path].
  - reflexivity.
  - destruct (get_vertex_radiance_agree v v' sc sp o bsdf bd mode prob
                (spectrum_zero Samples) Hagree) as (Hv & Hsc & Hr).
    destruct (get_vertex_radiance v sc sp o bsdf bd mode prob _)
      as [[v1 sc1] r1].
    destruct (get_vertex_radiance v' sc sp o bsdf bd mode prob _)
      as [[v1' sc1'] r1'].
    cbn in Hv, Hsc, Hr. subst sc1' r1'. apply IH, Hv.
  - reflexivity.
Qed.

Lemma Parameters_new_depth_option (params : ParamArray) (name : string)
    (value : Z) :
  name = "max_reflection_depth" \/ name = "max_refraction_depth" ->
  same_sampling (Parameters_new (<[name := value]> params))
    (Parameters_new params).
Proof.
  intros [-> | ->]; unfold same_sampling, Parameters_new; cbn;
    rewrite !get_optional_insert_ne by discriminate; auto.
Qed.

End DepthOptions.

(** X12: the options [max_reflection_depth] and [max_refraction_depth] are
    read into the parameters of the engine and then never used: whatever
    value either is given, [compute_lighting] returns the same sampling
    context and the same radiance and records the same statistics. *)
Theorem depth_options_unused {A : Arith} {O : Opaque} (C : Collaborators)
    (light_sampler : LightSampler) (params : ParamArray) (name : string)
    (value : Z) (sc : SamplingContext) (shc : ShadingContext)
    (sp : ShadingPoint) (r : Spectrum) :
  name = "max_reflection_depth" \/ name = "max_refraction_depth" ->
  (compute_lighting
     (DRTLightingEngine_new light_sampler (<[name := value]> params))
     sc shc sp r).1.2 =
    (compute_lighting (DRTLightingEngine_new light_sampler params)
       sc shc sp r).1.2 /\
  (compute_lighting
     (DRTLightingEngine_new light_sampler (<[name := value]> params))
     sc shc sp r).2 =
    (compute_lighting (DRTLightingEngine_new light_sampler params)
       sc shc sp r).2 /\
  m_stats
    (compute_lighting
       (DRTLightingEngine_new light_sampler (<[name := value]> params))
       sc shc sp r).1.1 =
    m_stats
      (compute_lighting (DRTLightingEngine_new light_sampler params)
         sc shc sp r).1.1.
Proof.
  intros Hname.
  pose proof (Parameters_new_depth_option params name value Hname) as Hsame.
  unfold compute_lighting, PathTracer_trace, DRTLightingEngine_new.
  cbn [m_light_sampler m_params m_stats].
  destruct Hsame as (Hmin & Hrest). rewrite Hmin.
  rewrite (visit_path_agree _
             (PathVertexVisitor_new light_sampler
                (Parameters_new (<[name := value]> params)) shc)
             (PathVertexVisitor_new light_sampler (Parameters_new params) shc)).
  - destruct (visit_path _ _ _ _) as [sc' r']. cbn. auto.
  - unfold visitors_agree, same_sampling. cbn. auto.
Qed.

Lemma depth_options_unused_witness :
  Parameters_new (<["max_reflection_depth" := 1%Z]> ∅) <> Parameters_new ∅ /\
  (compute_lighting (C := Scene.lit_degenerate)
     (DRTLightingEngine_new (A := IEEE) (O := Scene.opaque) tt
        (<["max_reflection_depth" := 1%Z]> ∅))
     tt tt Scene.degenerate (spectrum_zero 3)).2 =
  (compute_lighting (C := Scene.lit_degenerate)
     (DRTLightingEngine_new (A := IEEE) (O := Scene.opaque) tt ∅)
     tt tt Scene.degenerate (spectrum_zero 3)).2.
Proof.
  split.
  - unfold Parameters_new. rewrite get_optional_insert_eq.
    rewrite !get_optional_empty. discriminate.
  - apply (depth_options_unused Scene.lit_degenerate tt ∅
             "max_reflection_depth" 1%Z tt tt Scene.degenerate
             (spectrum_zero 3)).
    left. reflexivity.
Defined.
